(** * estaciones: the KPI pipeline of [pages/0_Animation_Demo.py]

    A shallow embedding of [calculate_kpis] and [transform_data] and of the
    library calls they rely on ([pd.to_datetime], [DataFrame.drop_duplicates],
    [pd.melt], [dateutil.relativedelta]), followed by the properties of the
    pipeline. *)

From Stdlib Require Import ZArith List String Ascii Bool Lia Eqdep_dec Sorted.
Import ListNotations.
Local Open Scope Z_scope.

(** ** Calendar dates

    Every timestamp the pipeline handles comes from a date-only text cell, so
    a timestamp is a proleptic Gregorian calendar date at midnight. *)

Module Calendar.

(** [calendar.isleap] *)
Definition isleap (y : Z) : bool :=
  (y mod 4 =? 0) && (negb (y mod 100 =? 0) || (y mod 400 =? 0)).

(** [calendar.monthrange(year, month)[1]]: the number of days of a month. *)
Definition monthrange (y m : Z) : Z :=
  if m =? 2 then (if isleap y then 29 else 28)
  else if (m =? 4) || (m =? 6) || (m =? 9) || (m =? 11) then 30
  else 31.

Definition valid_ymd (y m d : Z) : bool :=
  (1 <=? y) && (y <=? 9999) && (1 <=? m) && (m <=? 12)
  && (1 <=? d) && (d <=? monthrange y m).

(** A timestamp is a valid date by construction, as [datetime] objects are. *)
Record date : Type := mkdate {
  year : Z;
  month : Z;
  day : Z;
  date_ok : valid_ymd year month day = true
}.

Definition make_date (y m d : Z) : option date :=
  match bool_dec (valid_ymd y m d) true with
  | left ok => Some (mkdate y m d ok)
  | right _ => None
  end.

Definition ymd (d : date) : Z * Z * Z := (year d, month d, day d).

(** Lexicographic order on (year, month, day) triples: [datetime.__lt__]. *)
Definition ymd_ltb (a b : Z * Z * Z) : bool :=
  let '(ya, ma, da) := a in
  let '(yb, mb, db) := b in
  (ya <? yb) || ((ya =? yb) && ((ma <? mb) || ((ma =? mb) && (da <? db)))).

Definition date_ltb (a b : date) : bool := ymd_ltb (ymd a) (ymd b).

(** [date.toordinal]: days since 0001-01-01, that day being 1. *)
Definition days_before_year (y : Z) : Z :=
  let p := y - 1 in p * 365 + p / 4 - p / 100 + p / 400.

Fixpoint days_before_month_from (y : Z) (n : nat) (m : Z) : Z :=
  match n with
  | O => 0
  | S n' => monthrange y m + days_before_month_from y n' (m + 1)
  end.

Definition days_before_month (y m : Z) : Z :=
  days_before_month_from y (Z.to_nat (m - 1)) 1.

Definition toordinal (d : date) : Z :=
  days_before_year (year d) + days_before_month (year d) (month d) + day d.

End Calendar.
Import Calendar.

(** ** [dateutil.relativedelta.relativedelta(dt1, dt2)] *)

Module Relativedelta.

Record relativedelta : Type := mkdelta {
  years : Z;
  months : Z
}.

(** [_sign]: [int(copysign(1, x))]. *)
Definition sign (x : Z) : Z := if x <? 0 then -1 else 1.

(** [_set_months]: splits a month count into years and a remainder of the
    same sign with at most 11 months. *)
Definition set_months (m : Z) : relativedelta :=
  if Z.abs m >? 11 then
    let s := sign m in
    mkdelta ((m * s / 12) * s) ((m * s mod 12) * s)
  else mkdelta 0 m.

(** [__radd__] of a delta that holds only years and months: the date moved by
    that many months, its day clipped to the length of the month reached. *)
Definition radd (rd : relativedelta) (other : date) : Z * Z * Z :=
  let y := year other + years rd in
  let m := month other in
  let '(y, m) :=
    if months rd =? 0 then (y, m)
    else
      let m := m + months rd in
      if m >? 12 then (y + 1, m - 12)
      else if m <? 1 then (y - 1, m + 12)
      else (y, m) in
  (y, m, Z.min (monthrange y m) (day other)).

(** The overshoot loop
    [while compare(dt1, dtm): months += increment; ...; dtm = self.__radd__(dt2)].
    [None] is a loop that has not left after [fuel] rounds. *)
Fixpoint adjust (fuel : nat) (dt1 dt2 : date) (gt : bool) (increment m : Z)
  : option Z :=
  let dtm := radd (set_months m) dt2 in
  let compare := if gt then ymd_ltb dtm (ymd dt1) else ymd_ltb (ymd dt1) dtm in
  if compare then
    match fuel with
    | O => None
    | S fuel' => adjust fuel' dt1 dt2 gt increment (m + increment)
    end
  else Some m.

Definition relativedelta_fuel (fuel : nat) (dt1 dt2 : date)
  : option relativedelta :=
  let m := (year dt1 - year dt2) * 12 + (month dt1 - month dt2) in
  let '(gt, increment) := if date_ltb dt1 dt2 then (true, 1) else (false, -1) in
  option_map set_months (adjust fuel dt1 dt2 gt increment m).

(** One round of the loop is always enough (lemma
    [relativedelta_fuel_enough] below), so the default is never taken. *)
Definition relativedelta_of (dt1 dt2 : date) : relativedelta :=
  match relativedelta_fuel 1 dt1 dt2 with
  | Some rd => rd
  | None => mkdelta 0 0
  end.

End Relativedelta.
Import Relativedelta.

(** ** Strings: [str.replace] for a non-empty pattern *)

Fixpoint replace_skip (old new : string) (skip : nat) (s : string) : string :=
  match s with
  | EmptyString => EmptyString
  | String c s' =>
      match skip with
      | S k => replace_skip old new k s'
      | O =>
          if String.prefix old s
          then (new ++ replace_skip old new (String.length old - 1) s')%string
          else String c (replace_skip old new 0 s')
      end
  end.

Definition replace (old new s : string) : string := replace_skip old new 0 s.

(** ** Exceptions *)

Inductive exn : Type :=
| KeyError (missing : list string)
| IndexError.

Inductive result (A : Type) : Type :=
| Ok (a : A)
| Raise (e : exn).
Arguments Ok {A} a.
Arguments Raise {A} e.

Definition bind {A B : Type} (m : result A) (k : A -> result B) : result B :=
  match m with
  | Ok a => k a
  | Raise e => Raise e
  end.

Declare Scope result_scope.
Delimit Scope result_scope with result.
Notation "x <- m ;; k" := (bind m (fun x => k))
  (at level 61, m at next level, right associativity) : result_scope.
Local Open Scope result_scope.

(** [for x in l: s = body(s, x)] *)
Fixpoint for_each {A S : Type} (l : list A) (body : S -> A -> result S) (s : S)
  : result S :=
  match l with
  | [] => Ok s
  | x :: l' => s' <- body s x ;; for_each l' body s'
  end.

(** [Series.apply(f)] with a function that may raise. *)
Fixpoint apply_series {A B : Type} (f : A -> result B) (s : list A)
  : result (list B) :=
  match s with
  | [] => Ok []
  | x :: s' => y <- f x ;; ys <- apply_series f s' ;; Ok (y :: ys)
  end.

(** ** The wide table *)

(** A cell of an identifier column: text, a number, or missing. *)
Inductive value : Type :=
| Str (s : string)
| Num (z : Z)
| NaN.

(** A cell of a date column: text as read from the CSV, a parsed timestamp,
    or missing ([NaN] before parsing, [NaT] after). *)
Inductive cell : Type :=
| Text (s : string)
| Timestamp (d : date)
| NaT.

Record Meta : Type := mkMeta {
  IDEtapa : value;
  NoEtapa : value;
  Pais : value;
  EstadoColumnaGOP : value;
  Alias : value;
  Sector : value;
  SubSector : value
}.

Record Fechas : Type := mkFechas {
  Fecha_CartaConsulta : cell;
  FechaAprobacion : cell;
  FechaVigencia : cell;
  FechaElegibilidad : cell;
  FechadePrimerDesembolso : cell
}.

Record KPIs : Type := mkKPIs {
  KPI_Aprobacion : option Z;
  KPI_Vigencia : option Z;
  KPI_Elegibilidad : option Z;
  KPI_Primer_Desembolso : option Z
}.

(** One row of the wide table. A KPI column that the frame does not have yet
    reads [None] in every row. *)
Record Row : Type := mkRow {
  meta : Meta;
  fechas : Fechas;
  kpis : KPIs
}.

Inductive id_column : Type :=
| cIDEtapa | cNoEtapa | cPais | cEstadoColumnaGOP | cAlias | cSector | cSubSector.

Inductive date_column : Type :=
| cFecha_CartaConsulta | cFechaAprobacion | cFechaVigencia
| cFechaElegibilidad | cFechadePrimerDesembolso.

Inductive kpi_column : Type :=
| cKPI_Aprobacion | cKPI_Vigencia | cKPI_Elegibilidad | cKPI_Primer_Desembolso.

Definition id_name (c : id_column) : string :=
  match c with
  | cIDEtapa => "IDEtapa"
  | cNoEtapa => "NoEtapa"
  | cPais => "Pais"
  | cEstadoColumnaGOP => "EstadoColumnaGOP"
  | cAlias => "Alias"
  | cSector => "Sector"
  | cSubSector => "SubSector"
  end.

Definition date_name (c : date_column) : string :=
  match c with
  | cFecha_CartaConsulta => "Fecha CartaConsulta"
  | cFechaAprobacion => "FechaAprobacion"
  | cFechaVigencia => "FechaVigencia"
  | cFechaElegibilidad => "FechaElegibilidad"
  | cFechadePrimerDesembolso => "FechadePrimerDesembolso"
  end.

Definition kpi_name (c : kpi_column) : string :=
  match c with
  | cKPI_Aprobacion => "KPI Aprobacion"
  | cKPI_Vigencia => "KPI Vigencia"
  | cKPI_Elegibilidad => "KPI Elegibilidad"
  | cKPI_Primer_Desembolso => "KPI Primer Desembolso"
  end.

Definition get_fecha (c : date_column) (r : Row) : cell :=
  match c with
  | cFecha_CartaConsulta => Fecha_CartaConsulta (fechas r)
  | cFechaAprobacion => FechaAprobacion (fechas r)
  | cFechaVigencia => FechaVigencia (fechas r)
  | cFechaElegibilidad => FechaElegibilidad (fechas r)
  | cFechadePrimerDesembolso => FechadePrimerDesembolso (fechas r)
  end.

Definition set_fecha (c : date_column) (v : cell) (r : Row) : Row :=
  let f := fechas r in
  let f' :=
    match c with
    | cFecha_CartaConsulta =>
        mkFechas v (FechaAprobacion f) (FechaVigencia f) (FechaElegibilidad f)
          (FechadePrimerDesembolso f)
    | cFechaAprobacion =>
        mkFechas (Fecha_CartaConsulta f) v (FechaVigencia f)
          (FechaElegibilidad f) (FechadePrimerDesembolso f)
    | cFechaVigencia =>
        mkFechas (Fecha_CartaConsulta f) (FechaAprobacion f) v
          (FechaElegibilidad f) (FechadePrimerDesembolso f)
    | cFechaElegibilidad =>
        mkFechas (Fecha_CartaConsulta f) (FechaAprobacion f) (FechaVigencia f)
          v (FechadePrimerDesembolso f)
    | cFechadePrimerDesembolso =>
        mkFechas (Fecha_CartaConsulta f) (FechaAprobacion f) (FechaVigencia f)
          (FechaElegibilidad f) v
    end in
  mkRow (meta r) f' (kpis r).

Definition get_kpi (c : kpi_column) (r : Row) : option Z :=
  match c with
  | cKPI_Aprobacion => KPI_Aprobacion (kpis r)
  | cKPI_Vigencia => KPI_Vigencia (kpis r)
  | cKPI_Elegibilidad => KPI_Elegibilidad (kpis r)
  | cKPI_Primer_Desembolso => KPI_Primer_Desembolso (kpis r)
  end.

Definition set_kpi (c : kpi_column) (v : option Z) (r : Row) : Row :=
  let k := kpis r in
  let k' :=
    match c with
    | cKPI_Aprobacion =>
        mkKPIs v (KPI_Vigencia k) (KPI_Elegibilidad k) (KPI_Primer_Desembolso k)
    | cKPI_Vigencia =>
        mkKPIs (KPI_Aprobacion k) v (KPI_Elegibilidad k) (KPI_Primer_Desembolso k)
    | cKPI_Elegibilidad =>
        mkKPIs (KPI_Aprobacion k) (KPI_Vigencia k) v (KPI_Primer_Desembolso k)
    | cKPI_Primer_Desembolso =>
        mkKPIs (KPI_Aprobacion k) (KPI_Vigencia k) (KPI_Elegibilidad k) v
    end in
  mkRow (meta r) (fechas r) k'.

(** A [DataFrame]: the header and the rows. Looking up a column is decided by
    the header alone; a frame lacking a required column raises before any of
    its rows is read. *)
Record DataFrame : Type := mkFrame {
  columns : list string;
  rows : list Row
}.

Definition has_column (data : DataFrame) (name : string) : bool :=
  existsb (String.eqb name) (columns data).

Definition add_column (cols : list string) (name : string) : list string :=
  if existsb (String.eqb name) cols then cols else cols ++ [name].

(** Column assignment [data[col] = series]; the series has one entry per
    row. *)
Fixpoint assign {A : Type} (set : A -> Row -> Row) (s : list A)
  (rs : list Row) : list Row :=
  match s, rs with
  | v :: s', r :: rs' => set v r :: assign set s' rs'
  | _, _ => []
  end.

(** [data[col]] for a date column. *)
Definition getitem (data : DataFrame) (col : date_column) : result (list cell) :=
  if has_column data (date_name col)
  then Ok (map (get_fecha col) (rows data))
  else Raise (KeyError [date_name col]).

Definition setitem (data : DataFrame) (col : date_column) (s : list cell)
  : DataFrame :=
  mkFrame (add_column (columns data) (date_name col))
          (assign (set_fecha col) s (rows data)).

Definition setitem_kpi (data : DataFrame) (col : kpi_column)
  (s : list (option Z)) : DataFrame :=
  mkFrame (add_column (columns data) (kpi_name col))
          (assign (set_kpi col) s (rows data)).

(** [data.apply(f, axis=1)] with a function that returns a scalar: one entry
    per row, and the empty series on a table without rows. *)
Definition apply_rows {A : Type} (data : DataFrame) (f : Row -> A) : list A :=
  map f (rows data).

Definition date_columns : list date_column :=
  [cFecha_CartaConsulta; cFechaAprobacion; cFechaVigencia;
   cFechaElegibilidad; cFechadePrimerDesembolso].

(** ** Row equality and [DataFrame.drop_duplicates] *)

Lemma date_eq (a b : date) :
  year a = year b -> month a = month b -> day a = day b -> a = b.
Proof.
  destruct a as [ya ma da oka], b as [yb mb db okb]; simpl.
  intros -> -> ->. f_equal. apply UIP_dec, bool_dec.
Qed.

Definition date_eq_dec (a b : date) : {a = b} + {a <> b}.
Proof.
  destruct (Z.eq_dec (year a) (year b)) as [Hy | Hy];
    [ | right; intros ->; apply Hy; reflexivity ].
  destruct (Z.eq_dec (month a) (month b)) as [Hm | Hm];
    [ | right; intros ->; apply Hm; reflexivity ].
  destruct (Z.eq_dec (day a) (day b)) as [Hd | Hd];
    [ | right; intros ->; apply Hd; reflexivity ].
  left. apply date_eq; assumption.
Defined.

Definition value_eq_dec (a b : value) : {a = b} + {a <> b}.
Proof. decide equality; [ apply string_dec | apply Z.eq_dec ]. Defined.

Definition cell_eq_dec (a b : cell) : {a = b} + {a <> b}.
Proof. decide equality; [ apply string_dec | apply date_eq_dec ]. Defined.

Definition Meta_eq_dec (a b : Meta) : {a = b} + {a <> b}.
Proof. decide equality; apply value_eq_dec. Defined.

Definition Fechas_eq_dec (a b : Fechas) : {a = b} + {a <> b}.
Proof. decide equality; apply cell_eq_dec. Defined.

Definition KPIs_eq_dec (a b : KPIs) : {a = b} + {a <> b}.
Proof.
  assert (forall x y : option Z, {x = y} + {x <> y})
    by (decide equality; apply Z.eq_dec).
  decide equality.
Defined.

Definition Row_eq_dec (a b : Row) : {a = b} + {a <> b}.
Proof.
  decide equality;
    [ apply KPIs_eq_dec | apply Fechas_eq_dec | apply Meta_eq_dec ].
Defined.

Definition seen_before (r : Row) (seen : list Row) : bool :=
  if in_dec Row_eq_dec r seen then true else false.

(** [DataFrame.duplicated(keep='first')]: a row is marked when an equal row
    came before it. Missing values compare equal to each other. *)
Fixpoint duplicated_from (seen : list Row) (rs : list Row) : list bool :=
  match rs with
  | [] => []
  | r :: rs' => seen_before r seen :: duplicated_from (r :: seen) rs'
  end.

Definition duplicated (rs : list Row) : list bool := duplicated_from [] rs.

(** Boolean indexing [frame[mask]]. *)
Fixpoint select_mask {A : Type} (mask : list bool) (l : list A) : list A :=
  match mask, l with
  | b :: mask', x :: l' =>
      if b then x :: select_mask mask' l' else select_mask mask' l'
  | _, _ => []
  end.

Definition drop_duplicates (data : DataFrame) : DataFrame :=
  mkFrame (columns data)
          (select_mask (map negb (duplicated (rows data))) (rows data)).

(** ** The long table *)

(** A row of [pd.melt]'s result: the [id_vars], the name of the KPI column
    the value came from, and the value. *)
Record Melted : Type := mkMelted {
  id_meta : Meta;
  id_fechas : Fechas;
  Estaciones : string;
  KPI : option Z
}.

(** A row of the table [transform_data] returns; its ten columns are the
    seven identifiers, [Estaciones], [KPI] and [Año]. *)
Record Observation : Type := mkObservation {
  obs_meta : Meta;
  obs_Estaciones : string;
  obs_KPI : option Z;
  obs_Año : option Z
}.

Definition id_vars : list string :=
  map id_name [cIDEtapa; cNoEtapa; cPais; cEstadoColumnaGOP; cAlias; cSector;
               cSubSector]
  ++ map date_name date_columns.

Definition value_vars : list kpi_column :=
  [cKPI_Aprobacion; cKPI_Vigencia; cKPI_Elegibilidad; cKPI_Primer_Desembolso].

(** [pd.melt(data, id_vars, value_vars, var_name='Estaciones',
    value_name='KPI')]: one block of rows per value column, in the order of
    [value_vars], each block in the order of the rows. *)
Definition melt_rows (rs : list Row) : list Melted :=
  flat_map
    (fun c => map (fun r => mkMelted (meta r) (fechas r) (kpi_name c)
                                     (get_kpi c r)) rs)
    value_vars.

Definition melt (data : DataFrame) : result (list Melted) :=
  match filter (fun name => negb (has_column data name))
               (id_vars ++ map kpi_name value_vars) with
  | [] => Ok (melt_rows (rows data))
  | missing => Raise (KeyError missing)
  end.

(** The melted frame has a fresh [RangeIndex]; filtering keeps the labels. *)
Fixpoint with_index {A : Type} (start : nat) (l : list A) : list (nat * A) :=
  match l with
  | [] => []
  | x :: l' => (start, x) :: with_index (S start) l'
  end.

(** [year_mapping] *)
Definition year_mapping : list (string * date_column) :=
  [("Aprobacion", cFechaAprobacion);
   ("Vigencia", cFechaVigencia);
   ("Elegibilidad", cFechaElegibilidad);
   ("Primer Desembolso", cFechadePrimerDesembolso)]%string.

Fixpoint dict_getitem {V : Type} (d : list (string * V)) (key : string)
  : result V :=
  match d with
  | [] => Raise (KeyError [key])
  | (k, v) :: d' => if String.eqb k key then Ok v else dict_getitem d' key
  end.

(** [Series.dt.year] on one cell: [NaN] for [NaT]. *)
Definition dt_year (c : cell) : option Z :=
  match c with
  | Timestamp d => Some (year d)
  | _ => None
  end.

(** [Series.iloc[0]] *)
Definition iloc0 {A : Type} (s : list A) : result A :=
  match s with
  | [] => Raise IndexError
  | x :: _ => Ok x
  end.

(** [pd.notna] on a KPI value and the comparison [>= 0]. *)
Definition notna (v : option Z) : bool :=
  match v with Some _ => true | None => false end.

Definition ge0 (v : option Z) : bool :=
  match v with Some z => 0 <=? z | None => false end.

(** Python's [round(n / d)] for an integer [n] and [d = 30]: to the nearest
    integer, a tie going to the even one. *)
Definition round_div (n d : Z) : Z :=
  let q := n / d in
  let r := n mod d in
  if 2 * r <? d then q
  else if d <? 2 * r then q + 1
  else if Z.even q then q else q + 1.

(** [pd.to_datetime] on one cell with [errors='coerce']: a timestamp stays,
    text that does not parse becomes [NaT]. *)
Definition to_datetime (parse : string -> option date) (c : cell) : cell :=
  match c with
  | Text s => match parse s with Some d => Timestamp d | None => NaT end
  | Timestamp d => Timestamp d
  | NaT => NaT
  end.

(** ** The two functions of the page *)

Section Pipeline.

(** The two parsers of [pd.to_datetime] are pandas code. [strptime] reads one
    text under the layout ['%d/%m/%Y']. [infer] is the parse without a
    layout; what it makes of a text may depend on the column the text stands
    in (pandas guesses one layout per column), so it takes the column too. *)
Variable strptime : string -> option date.
Variable infer : list cell -> string -> option date.

(** [pd.to_datetime(series, format='%d/%m/%Y', errors='coerce')] *)
Definition to_datetime_format (s : list cell) : list cell :=
  map (to_datetime strptime) s.

(** [pd.to_datetime(series, errors='coerce')] *)
Definition to_datetime_infer (s : list cell) : list cell :=
  map (to_datetime (infer s)) s.

(** [get_approx_months_diff], the closure of [calculate_kpis]. Both columns
    were converted before it runs, so no text reaches it. *)
Definition get_approx_months_diff (later_date earlier_date : cell) : option Z :=
  match later_date, earlier_date with
  | Timestamp l, Timestamp e =>
      let days_diff := toordinal l - toordinal e in
      Some (round_div days_diff 30)
  | _, _ => None
  end.

Definition calculate_kpis (data : DataFrame) : result DataFrame :=
  data <- for_each date_columns
            (fun data col =>
               s <- getitem data col ;;
               Ok (setitem data col (to_datetime_format s)))
            data ;;
  let data := setitem_kpi data cKPI_Aprobacion
    (apply_rows data (fun x =>
       get_approx_months_diff (FechaAprobacion (fechas x))
                              (Fecha_CartaConsulta (fechas x)))) in
  let data := setitem_kpi data cKPI_Vigencia
    (apply_rows data (fun x =>
       get_approx_months_diff (FechaVigencia (fechas x))
                              (FechaAprobacion (fechas x)))) in
  let data := setitem_kpi data cKPI_Elegibilidad
    (apply_rows data (fun x =>
       get_approx_months_diff (FechaElegibilidad (fechas x))
                              (FechaVigencia (fechas x)))) in
  let data := setitem_kpi data cKPI_Primer_Desembolso
    (apply_rows data (fun x =>
       get_approx_months_diff (FechadePrimerDesembolso (fechas x))
                              (FechaElegibilidad (fechas x)))) in
  Ok data.

(** The expression of the four lambdas of [transform_data]:
    [relativedelta(later, earlier).months if pd.notna(later) and
    pd.notna(earlier) else None]. *)
Definition months_or_none (later earlier : cell) : option Z :=
  match later, earlier with
  | Timestamp l, Timestamp e => Some (months (relativedelta_of l e))
  | _, _ => None
  end.

(** The lambda of line 72:
    [data[year_mapping[x.replace('KPI ', '')]].dt.year.iloc[0]]. *)
Definition year_lambda (data : DataFrame) (x : string) : result (option Z) :=
  col <- dict_getitem year_mapping (replace "KPI " "" x) ;;
  s <- getitem data col ;;
  iloc0 (map dt_year s).

Definition transform_data (data : DataFrame)
  : result (list (nat * Observation)) :=
  let data := drop_duplicates data in
  data <- for_each date_columns
            (fun data col =>
               s <- getitem data col ;;
               Ok (setitem data col (to_datetime_infer s)))
            data ;;
  let data := setitem_kpi data cKPI_Aprobacion
    (apply_rows data (fun x =>
       months_or_none (FechaAprobacion (fechas x))
                      (Fecha_CartaConsulta (fechas x)))) in
  let data := setitem_kpi data cKPI_Vigencia
    (apply_rows data (fun x =>
       months_or_none (FechaVigencia (fechas x))
                      (FechaAprobacion (fechas x)))) in
  let data := setitem_kpi data cKPI_Elegibilidad
    (apply_rows data (fun x =>
       months_or_none (FechaElegibilidad (fechas x))
                      (FechaVigencia (fechas x)))) in
  let data := setitem_kpi data cKPI_Primer_Desembolso
    (apply_rows data (fun x =>
       months_or_none (FechadePrimerDesembolso (fechas x))
                      (FechaElegibilidad (fechas x)))) in
  melted_data <- melt data ;;
  año <- apply_series (year_lambda data) (map Estaciones melted_data) ;;
  let melted_data := with_index 0 (combine melted_data año) in
  let melted_data :=
    filter (fun m => notna (KPI (fst (snd m))) && ge0 (KPI (fst (snd m))))
           melted_data in
  Ok (map (fun m =>
             let '(i, (x, y)) := m in
             (i, mkObservation (id_meta x) (Estaciones x) (KPI x) y))
          melted_data).

(** The body of [main] once the table is loaded:
    [data = calculate_kpis(data); data_long_format = transform_data(data)].
    [calculate_kpis] assigns the columns of the caller's table in place, so
    the table the caller holds afterwards is returned too. *)
Definition pipeline (data : DataFrame)
  : result (DataFrame * list (nat * Observation)) :=
  data <- calculate_kpis data ;;
  data_long_format <- transform_data data ;;
  Ok (data, data_long_format).

End Pipeline.

(** ** What the two functions compute, row by row *)

(** The later and the earlier milestone column of each KPI, as the lambdas
    of lines 50-53 pair them. *)
Definition later (c : kpi_column) : date_column :=
  match c with
  | cKPI_Aprobacion => cFechaAprobacion
  | cKPI_Vigencia => cFechaVigencia
  | cKPI_Elegibilidad => cFechaElegibilidad
  | cKPI_Primer_Desembolso => cFechadePrimerDesembolso
  end.

Definition earlier (c : kpi_column) : date_column :=
  match c with
  | cKPI_Aprobacion => cFecha_CartaConsulta
  | cKPI_Vigencia => cFechaAprobacion
  | cKPI_Elegibilidad => cFechaVigencia
  | cKPI_Primer_Desembolso => cFechaElegibilidad
  end.

(** Position of a KPI column in [value_vars]. *)
Definition block (c : kpi_column) : nat :=
  match c with
  | cKPI_Aprobacion => 0
  | cKPI_Vigencia => 1
  | cKPI_Elegibilidad => 2
  | cKPI_Primer_Desembolso => 3
  end.

Definition convert_row (conv : date_column -> cell -> cell) (r : Row) : Row :=
  mkRow (meta r)
        (mkFechas (conv cFecha_CartaConsulta (Fecha_CartaConsulta (fechas r)))
                  (conv cFechaAprobacion (FechaAprobacion (fechas r)))
                  (conv cFechaVigencia (FechaVigencia (fechas r)))
                  (conv cFechaElegibilidad (FechaElegibilidad (fechas r)))
                  (conv cFechadePrimerDesembolso
                        (FechadePrimerDesembolso (fechas r))))
        (kpis r).

Definition assign_kpis (f : cell -> cell -> option Z) (r : Row) : Row :=
  mkRow (meta r) (fechas r)
        (mkKPIs (f (FechaAprobacion (fechas r)) (Fecha_CartaConsulta (fechas r)))
                (f (FechaVigencia (fechas r)) (FechaAprobacion (fechas r)))
                (f (FechaElegibilidad (fechas r)) (FechaVigencia (fechas r)))
                (f (FechadePrimerDesembolso (fechas r))
                   (FechaElegibilidad (fechas r)))).

Definition required_columns : list string := id_vars.

Definition schema_ok (data : DataFrame) : bool :=
  forallb (has_column data) required_columns.

Definition kpi_columns_added (cols : list string) : list string :=
  fold_left add_column (map kpi_name value_vars) cols.

Section Rowwise.

Variable strptime : string -> option date.
Variable infer : list cell -> string -> option date.

(** A row of the table after lines 43-48 of [transform_data]: each date cell
    converted by the parse without a layout, run on its column. *)
Definition normalise (rs : list Row) (r : Row) : Row :=
  convert_row (fun c => to_datetime (infer (map (get_fecha c) rs))) r.

(** The wide table after line 53: duplicates dropped, dates converted, the
    four KPI columns assigned. *)
Definition wide (data : DataFrame) : list Row :=
  let rs := rows (drop_duplicates data) in
  map (fun r => assign_kpis months_or_none (normalise rs r)) rs.

(** The year line 72 gives to every row of a KPI's block. *)
Definition first_year (w : list Row) (c : kpi_column) : option Z :=
  match w with
  | [] => None
  | r :: _ => dt_year (get_fecha (later c) r)
  end.

(** The melted table with its [Año] column, before the filter of line 75. *)
Definition long (w : list Row) : list (nat * (Melted * option Z)) :=
  with_index 0
    (flat_map
       (fun c => map (fun r => (mkMelted (meta r) (fechas r) (kpi_name c)
                                         (get_kpi c r), first_year w c)) w)
       value_vars).

Definition keep (m : nat * (Melted * option Z)) : bool :=
  notna (KPI (fst (snd m))) && ge0 (KPI (fst (snd m))).

Definition to_observation (m : nat * (Melted * option Z)) : nat * Observation :=
  let '(i, (x, y)) := m in
  (i, mkObservation (id_meta x) (Estaciones x) (KPI x) y).

(** The table [calculate_kpis] leaves: dates read under the layout, the four
    approximate KPI columns assigned. *)
Definition approx_row (r : Row) : Row :=
  assign_kpis get_approx_months_diff
              (convert_row (fun _ => to_datetime strptime) r).

End Rowwise.

Lemma assign_map {A : Type} (set : A -> Row -> Row) (g : Row -> A)
  (rs : list Row) :
  assign set (map g rs) rs = map (fun r => set (g r) r) rs.
Proof. induction rs as [ | r rs IH]; simpl; [ | rewrite IH ]; reflexivity. Qed.

Lemma add_column_present (cols : list string) (name : string) :
  existsb (String.eqb name) cols = true -> add_column cols name = cols.
Proof. unfold add_column. intros ->. reflexivity. Qed.

Lemma existsb_add_column (cols : list string) (name x : string) :
  existsb (String.eqb x) (add_column cols name)
  = existsb (String.eqb x) cols || String.eqb x name.
Proof.
  unfold add_column.
  destruct (existsb (String.eqb name) cols) eqn:E.
  - destruct (String.eqb x name) eqn:Ex; [ | rewrite orb_false_r; reflexivity ].
    apply String.eqb_eq in Ex. subst x. rewrite E. reflexivity.
  - rewrite existsb_app. simpl. rewrite orb_false_r. reflexivity.
Qed.

Lemma schema_ok_date (data : DataFrame) (c : date_column) :
  schema_ok data = true -> has_column data (date_name c) = true.
Proof.
  unfold schema_ok. rewrite forallb_forall. intros H. apply H.
  destruct c; simpl; tauto.
Qed.

Lemma schema_ok_id (data : DataFrame) (c : id_column) :
  schema_ok data = true -> has_column data (id_name c) = true.
Proof.
  unfold schema_ok. rewrite forallb_forall. intros H. apply H.
  destruct c; simpl; tauto.
Qed.

(** *** The conversion loop over [date_columns] *)

Lemma convert_step (conv : list cell -> cell -> cell) (data : DataFrame)
  (c : date_column) :
  has_column data (date_name c) = true ->
  (s <- getitem data c ;; Ok (setitem data c (map (conv s) s)))
  = Ok (mkFrame (columns data)
          (map (fun r => set_fecha c
                  (conv (map (get_fecha c) (rows data)) (get_fecha c r)) r)
               (rows data))).
Proof.
  intros H. unfold getitem. rewrite H. simpl. unfold setitem.
  rewrite add_column_present by exact H.
  rewrite map_map, assign_map. reflexivity.
Qed.

Lemma convert_loop (conv : list cell -> cell -> cell) (data : DataFrame) :
  (forall c, has_column data (date_name c) = true) ->
  for_each date_columns
    (fun data col => s <- getitem data col ;; Ok (setitem data col (map (conv s) s)))
    data
  = Ok (mkFrame (columns data)
          (map (convert_row (fun c => conv (map (get_fecha c) (rows data))))
               (rows data))).
Proof.
  intros H. destruct data as [cols rs]. unfold date_columns. simpl for_each.
  rewrite convert_step by apply H. simpl bind.
  rewrite convert_step by apply (H cFechaAprobacion). simpl bind.
  rewrite convert_step by apply (H cFechaVigencia). simpl bind.
  rewrite convert_step by apply (H cFechaElegibilidad). simpl bind.
  rewrite convert_step by apply (H cFechadePrimerDesembolso). simpl bind.
  simpl columns. simpl rows. f_equal. f_equal.
  rewrite !map_map. simpl. reflexivity.
Qed.

Lemma convert_loop_raises (conv : list cell -> cell -> cell)
  (data : DataFrame) :
  (exists c, has_column data (date_name c) = false) ->
  exists c,
    has_column data (date_name c) = false
    /\ for_each date_columns
         (fun data col =>
            s <- getitem data col ;; Ok (setitem data col (map (conv s) s)))
         data
       = Raise (KeyError [date_name c]).
Proof.
  intros Hmiss. destruct data as [cols rs]. unfold date_columns.
  simpl for_each.
  destruct (has_column (mkFrame cols rs) (date_name cFecha_CartaConsulta)) eqn:E1.
  2:{ exists cFecha_CartaConsulta. split; [ exact E1 | ].
      unfold getitem. rewrite E1. reflexivity. }
  rewrite convert_step by exact E1. simpl bind.
  destruct (has_column (mkFrame cols rs) (date_name cFechaAprobacion)) eqn:E2.
  2:{ exists cFechaAprobacion. split; [ exact E2 | ].
      unfold getitem. unfold has_column in *. simpl columns in *.
      rewrite E2. reflexivity. }
  rewrite convert_step by exact E2. simpl bind.
  destruct (has_column (mkFrame cols rs) (date_name cFechaVigencia)) eqn:E3.
  2:{ exists cFechaVigencia. split; [ exact E3 | ].
      unfold getitem. unfold has_column in *. simpl columns in *.
      rewrite E3. reflexivity. }
  rewrite convert_step by exact E3. simpl bind.
  destruct (has_column (mkFrame cols rs) (date_name cFechaElegibilidad)) eqn:E4.
  2:{ exists cFechaElegibilidad. split; [ exact E4 | ].
      unfold getitem. unfold has_column in *. simpl columns in *.
      rewrite E4. reflexivity. }
  rewrite convert_step by exact E4. simpl bind.
  destruct (has_column (mkFrame cols rs) (date_name cFechadePrimerDesembolso))
    eqn:E5.
  2:{ exists cFechadePrimerDesembolso. split; [ exact E5 | ].
      unfold getitem. unfold has_column in *. simpl columns in *.
      rewrite E5. reflexivity. }
  exfalso. destruct Hmiss as [c Hc].
  destruct c; congruence.
Qed.

(** *** Assigning the KPI columns *)

Lemma setitem_kpi_apply (data : DataFrame) (c : kpi_column)
  (f : Row -> option Z) :
  setitem_kpi data c (apply_rows data f)
  = mkFrame (add_column (columns data) (kpi_name c))
            (map (fun r => set_kpi c (f r) r) (rows data)).
Proof. unfold setitem_kpi, apply_rows. rewrite assign_map. reflexivity. Qed.

Lemma assign_four_kpis (f : cell -> cell -> option Z) (data : DataFrame) :
  (let data := setitem_kpi data cKPI_Aprobacion
     (apply_rows data (fun x =>
        f (FechaAprobacion (fechas x)) (Fecha_CartaConsulta (fechas x)))) in
   let data := setitem_kpi data cKPI_Vigencia
     (apply_rows data (fun x =>
        f (FechaVigencia (fechas x)) (FechaAprobacion (fechas x)))) in
   let data := setitem_kpi data cKPI_Elegibilidad
     (apply_rows data (fun x =>
        f (FechaElegibilidad (fechas x)) (FechaVigencia (fechas x)))) in
   setitem_kpi data cKPI_Primer_Desembolso
     (apply_rows data (fun x =>
        f (FechadePrimerDesembolso (fechas x)) (FechaElegibilidad (fechas x)))))
  = mkFrame (kpi_columns_added (columns data))
            (map (assign_kpis f) (rows data)).
Proof.
  cbv zeta. rewrite !setitem_kpi_apply. simpl columns. simpl rows.
  rewrite !map_map. reflexivity.
Qed.

(** *** The header checks of [pd.melt] and the year lookup *)

Lemma has_column_kpi_added (cols : list string) (rs : list Row) (x : string) :
  has_column (mkFrame (kpi_columns_added cols) rs) x
  = existsb (String.eqb x) cols
    || existsb (String.eqb x) (map kpi_name value_vars).
Proof.
  unfold has_column, kpi_columns_added. simpl.
  rewrite !existsb_add_column. rewrite orb_false_r, <- !orb_assoc. reflexivity.
Qed.

Lemma filter_nil {A : Type} (f : A -> bool) (l : list A) :
  (forall x, In x l -> f x = false) -> filter f l = [].
Proof.
  induction l as [ | a l IH]; simpl; intros H; [ reflexivity | ].
  rewrite (H a) by (left; reflexivity). apply IH. intros x Hx. apply H.
  right. exact Hx.
Qed.

Lemma melt_ok (cols : list string) (rs : list Row) :
  schema_ok (mkFrame cols rs) = true ->
  melt (mkFrame (kpi_columns_added cols) rs) = Ok (melt_rows rs).
Proof.
  intros H. unfold melt. rewrite filter_nil; [ reflexivity | ].
  intros x Hx. rewrite has_column_kpi_added. apply in_app_or in Hx.
  destruct Hx as [Hx | Hx].
  - unfold schema_ok in H. rewrite forallb_forall in H.
    specialize (H x Hx). unfold has_column in H. simpl in H. rewrite H.
    reflexivity.
  - destruct (existsb (String.eqb x) (map kpi_name value_vars)) eqn:E;
      [ rewrite orb_true_r; reflexivity | ].
    exfalso. assert (Ht : existsb (String.eqb x) (map kpi_name value_vars) = true).
    { apply existsb_exists. exists x. split; [ exact Hx | apply String.eqb_refl ]. }
    congruence.
Qed.

Lemma melt_missing (cols : list string) (rs : list Row) :
  schema_ok (mkFrame cols rs) = false ->
  exists name missing,
    melt (mkFrame (kpi_columns_added cols) rs) = Raise (KeyError (name :: missing))
    /\ forall x, In x (name :: missing) ->
         In x required_columns /\ has_column (mkFrame cols rs) x = false.
Proof.
  intros H. unfold melt.
  destruct (filter _ _) as [ | name missing] eqn:E.
  - exfalso. assert (Hall : schema_ok (mkFrame cols rs) = true).
    { unfold schema_ok. apply forallb_forall. intros x Hx.
      destruct (has_column (mkFrame cols rs) x) eqn:Ex; [ reflexivity | ].
      assert (Hin : In x (filter
                 (fun name => negb (has_column (mkFrame (kpi_columns_added cols) rs) name))
                 (id_vars ++ map kpi_name value_vars))).
      { apply filter_In. split; [ apply in_or_app; left; exact Hx | ].
        rewrite has_column_kpi_added. unfold has_column in Ex. simpl in Ex.
        rewrite Ex. simpl in Hx.
        repeat (destruct Hx as [Hx | Hx]; [ subst x; reflexivity | ]).
        contradiction. }
      rewrite E in Hin. contradiction. }
    congruence.
  - exists name, missing. split; [ reflexivity | ].
    intros x Hx. rewrite <- E in Hx. apply filter_In in Hx.
    destruct Hx as [Hin Hneg]. rewrite has_column_kpi_added in Hneg.
    apply negb_true_iff, orb_false_iff in Hneg. destruct Hneg as [Hc Hk].
    split; [ | exact Hc ].
    apply in_app_or in Hin. destruct Hin as [Hin | Hin]; [ exact Hin | ].
    exfalso.
    assert (Ht : existsb (String.eqb x) (map kpi_name value_vars) = true).
    { apply existsb_exists. exists x. split; [ exact Hin | apply String.eqb_refl ]. }
    congruence.
Qed.

Lemma year_mapping_kpi (c : kpi_column) :
  dict_getitem year_mapping (replace "KPI " "" (kpi_name c)) = Ok (later c).
Proof. destruct c; reflexivity. Qed.

Lemma year_lambda_kpi (data : DataFrame) (c : kpi_column) :
  has_column data (date_name (later c)) = true ->
  year_lambda data (kpi_name c)
  = iloc0 (map (fun r => dt_year (get_fecha (later c) r)) (rows data)).
Proof.
  intros H. unfold year_lambda. rewrite year_mapping_kpi. simpl bind.
  unfold getitem. rewrite H. simpl bind. rewrite map_map. reflexivity.
Qed.

Lemma apply_series_app {A B : Type} (f : A -> result B) (l1 l2 : list A)
  (r1 r2 : list B) :
  apply_series f l1 = Ok r1 -> apply_series f l2 = Ok r2 ->
  apply_series f (l1 ++ l2) = Ok (r1 ++ r2).
Proof.
  revert r1. induction l1 as [ | x l1 IH]; simpl; intros r1 H1 H2.
  - injection H1 as <-. exact H2.
  - destruct (f x) as [y | e]; simpl in *; [ | discriminate ].
    destruct (apply_series f l1) as [ys | e]; simpl in *; [ | discriminate ].
    injection H1 as <-. rewrite (IH ys eq_refl H2). reflexivity.
Qed.

Lemma apply_series_block (data : DataFrame) (c : kpi_column) (w : list Row) :
  has_column data (date_name (later c)) = true ->
  rows data = w ->
  apply_series (year_lambda data)
    (map Estaciones
       (map (fun r => mkMelted (meta r) (fechas r) (kpi_name c) (get_kpi c r)) w))
  = Ok (map (fun _ => first_year w c) w).
Proof.
  intros H Hw. rewrite map_map. simpl.
  assert (Hy : w <> [] -> year_lambda data (kpi_name c) = Ok (first_year w c)).
  { intros Hne. rewrite year_lambda_kpi by exact H. rewrite Hw.
    destruct w as [ | r w']; [ congruence | reflexivity ]. }
  clear Hw H. revert Hy. generalize (first_year w c) as y.
  generalize (year_lambda data) as f. intros f y Hy.
  induction w as [ | r w IH]; simpl; [ reflexivity | ].
  rewrite Hy by discriminate. simpl.
  destruct w as [ | r' w''] eqn:Ew; [ reflexivity | ].
  rewrite <- Ew in *. rewrite IH; [ reflexivity | ].
  intros _. apply Hy. discriminate.
Qed.

Lemma combine_app_same {A B : Type} (l1 l2 : list A) (r1 r2 : list B) :
  List.length l1 = List.length r1 ->
  combine (l1 ++ l2) (r1 ++ r2) = combine l1 r1 ++ combine l2 r2.
Proof.
  revert r1. induction l1 as [ | x l1 IH]; intros [ | y r1] H; simpl in *;
    try discriminate; [ reflexivity | ].
  rewrite IH by (injection H as H; exact H). reflexivity.
Qed.

Lemma combine_map_same {A B C : Type} (f : A -> B) (g : A -> C) (l : list A) :
  combine (map f l) (map g l) = map (fun x => (f x, g x)) l.
Proof. induction l as [ | x l IH]; simpl; [ | rewrite IH ]; reflexivity. Qed.

Lemma year_series (data : DataFrame) (w : list Row) :
  (forall c, has_column data (date_name (later c)) = true) ->
  rows data = w ->
  apply_series (year_lambda data) (map Estaciones (melt_rows w))
  = Ok (flat_map (fun c => map (fun _ => first_year w c) w) value_vars).
Proof.
  intros Hy Hw. unfold melt_rows, value_vars. cbn [flat_map].
  rewrite !map_app.
  repeat (apply apply_series_app;
          [ apply apply_series_block; [ apply Hy | exact Hw ] | ]).
  reflexivity.
Qed.

Lemma combine_melted (w : list Row) :
  combine (melt_rows w)
          (flat_map (fun c => map (fun _ => first_year w c) w) value_vars)
  = flat_map
      (fun c => map (fun r => (mkMelted (meta r) (fechas r) (kpi_name c)
                                        (get_kpi c r), first_year w c)) w)
      value_vars.
Proof.
  unfold melt_rows, value_vars. cbn [flat_map].
  rewrite !combine_app_same by (rewrite !length_map; reflexivity).
  rewrite !combine_map_same. reflexivity.
Qed.

Section Characterisation.

Variable strptime : string -> option date.
Variable infer : list cell -> string -> option date.

(** [calculate_kpis] on a table that has the five date columns. *)
Lemma calculate_kpis_ok (data : DataFrame) :
  (forall c, has_column data (date_name c) = true) ->
  calculate_kpis strptime data
  = Ok (mkFrame (kpi_columns_added (columns data))
                (map (approx_row strptime) (rows data))).
Proof.
  intros H. unfold calculate_kpis, to_datetime_format.
  rewrite (convert_loop (fun _ => to_datetime strptime) data H). simpl bind.
  pose proof (assign_four_kpis get_approx_months_diff
    (mkFrame (columns data)
       (map (convert_row (fun _ => to_datetime strptime)) (rows data)))) as E.
  cbv zeta in E |- *. rewrite E. simpl columns. simpl rows.
  rewrite map_map. reflexivity.
Qed.

(** [transform_data] on a table that has the twelve [id_vars] columns. *)
Lemma transform_data_ok (data : DataFrame) :
  schema_ok data = true ->
  transform_data infer data
  = Ok (map to_observation (filter keep (long (wide infer data)))).
Proof.
  intros H. unfold transform_data, to_datetime_infer. cbv zeta.
  assert (Hw : wide infer data
               = map (fun r => assign_kpis months_or_none
                        (normalise infer (rows (drop_duplicates data)) r))
                     (rows (drop_duplicates data))) by reflexivity.
  assert (Hc : columns (drop_duplicates data) = columns data) by reflexivity.
  assert (Hd : forall c, has_column (drop_duplicates data) (date_name c) = true).
  { intros c. apply (schema_ok_date data c H). }
  revert Hw Hc Hd. generalize (drop_duplicates data) as dd. intros dd Hw Hc Hd.
  rewrite (convert_loop (fun s => to_datetime (infer s)) _ Hd). simpl bind.
  pose proof (assign_four_kpis months_or_none
    (mkFrame (columns dd)
       (map (convert_row
               (fun c => to_datetime (infer (map (get_fecha c) (rows dd)))))
            (rows dd)))) as E.
  cbv zeta in E |- *. rewrite E. clear E. simpl columns. simpl rows.
  rewrite map_map. unfold normalise in Hw. rewrite <- Hw, Hc. clear Hw Hc Hd dd.
  set (w := wide infer data).
  rewrite melt_ok by exact H. simpl bind.
  assert (Hy : forall c,
             has_column (mkFrame (kpi_columns_added (columns data)) w)
                        (date_name (later c)) = true).
  { intros c. rewrite has_column_kpi_added.
    pose proof (schema_ok_date data (later c) H) as Hc.
    unfold has_column in Hc. rewrite Hc. reflexivity. }
  rewrite (year_series _ w Hy eq_refl). simpl bind.
  rewrite combine_melted. reflexivity.
Qed.

End Characterisation.

(** *** Which rows the long table holds *)

Lemma in_with_index {A : Type} (l : list A) (start i : nat) (x : A) :
  In (i, x) (with_index start l)
  <-> (start <= i)%nat /\ nth_error l (i - start) = Some x.
Proof.
  revert start. induction l as [ | a l IH]; intros start; simpl.
  - split; [ contradiction | ]. intros [_ H].
    destruct (i - start)%nat; discriminate.
  - rewrite IH. split.
    + intros [H | [Hle H]].
      * injection H as <- <-. split; [ lia | ].
        replace (start - start)%nat with O by lia. reflexivity.
      * split; [ lia | ].
        replace (i - start)%nat with (S (i - S start)) by lia. exact H.
    + intros [Hle H]. destruct (Nat.eq_dec i start) as [-> | Hne].
      * left. replace (start - start)%nat with O in H by lia.
        simpl in H. injection H as <-. reflexivity.
      * right. split; [ lia | ].
        replace (i - start)%nat with (S (i - S start)) in H by lia. exact H.
Qed.

Lemma nth_error_blocks {A B : Type} (f : kpi_column -> A -> B) (w : list A)
  (i : nat) (y : B) :
  nth_error (flat_map (fun c => map (f c) w) value_vars) i = Some y
  <-> exists c j x,
        nth_error w j = Some x /\ i = (block c * List.length w + j)%nat
        /\ y = f c x.
Proof.
  unfold value_vars. cbn [flat_map]. rewrite app_nil_r.
  set (n := List.length w).
  assert (Hlen : forall c, List.length (map (f c) w) = n)
    by (intros c; apply length_map).
  assert (Hnth : forall c j, nth_error (map (f c) w) j = Some y
                  <-> exists x, nth_error w j = Some x /\ y = f c x).
  { intros c j. rewrite nth_error_map.
    destruct (nth_error w j) as [x | ]; simpl; split.
    - intros H. injection H as <-. exists x. split; reflexivity.
    - intros [x' [H ->]]. injection H as ->. reflexivity.
    - discriminate.
    - intros [x' [H _]]. discriminate. }
  assert (Hlt : forall j x, nth_error w j = Some x -> (j < n)%nat).
  { intros j x H. apply nth_error_Some. congruence. }
  split.
  - intros H.
    rewrite nth_error_app, Hlen in H.
    destruct (i <? n)%nat eqn:E0.
    { apply Hnth in H. destruct H as [x [H ->]].
      exists cKPI_Aprobacion, i, x. simpl. auto. }
    apply Nat.ltb_ge in E0.
    rewrite nth_error_app, Hlen in H.
    destruct (i - n <? n)%nat eqn:E1.
    { apply Hnth in H. destruct H as [x [H ->]].
      exists cKPI_Vigencia, (i - n)%nat, x. simpl. fold n.
      repeat split; [ exact H | lia ]. }
    apply Nat.ltb_ge in E1.
    rewrite nth_error_app, Hlen in H.
    destruct (i - n - n <? n)%nat eqn:E2.
    { apply Hnth in H. destruct H as [x [H ->]].
      exists cKPI_Elegibilidad, (i - n - n)%nat, x. simpl. fold n.
      repeat split; [ exact H | lia ]. }
    apply Nat.ltb_ge in E2.
    apply Hnth in H. destruct H as [x [H ->]].
    exists cKPI_Primer_Desembolso, (i - n - n - n)%nat, x. simpl. fold n.
    repeat split; [ exact H | lia ].
  - intros [c [j [x [H [-> ->]]]]]. pose proof (Hlt j x H) as Hj. fold n.
    assert (Hx : nth_error (map (f c) w) j = Some (f c x))
      by (rewrite nth_error_map, H; reflexivity).
    destruct c; simpl block.
    + rewrite nth_error_app, Hlen.
      replace (0 * n + j <? n)%nat with true by (symmetry; apply Nat.ltb_lt; lia).
      exact Hx.
    + rewrite nth_error_app, Hlen.
      replace (1 * n + j <? n)%nat with false by (symmetry; apply Nat.ltb_ge; lia).
      rewrite nth_error_app, Hlen.
      replace (1 * n + j - n)%nat with j by lia.
      replace (j <? n)%nat with true by (symmetry; apply Nat.ltb_lt; lia).
      exact Hx.
    + rewrite nth_error_app, Hlen.
      replace (2 * n + j <? n)%nat with false by (symmetry; apply Nat.ltb_ge; lia).
      rewrite nth_error_app, Hlen.
      replace (2 * n + j - n <? n)%nat with false
        by (symmetry; apply Nat.ltb_ge; lia).
      rewrite nth_error_app, Hlen.
      replace (2 * n + j - n - n)%nat with j by lia.
      replace (j <? n)%nat with true by (symmetry; apply Nat.ltb_lt; lia).
      exact Hx.
    + rewrite nth_error_app, Hlen.
      replace (3 * n + j <? n)%nat with false by (symmetry; apply Nat.ltb_ge; lia).
      rewrite nth_error_app, Hlen.
      replace (3 * n + j - n <? n)%nat with false
        by (symmetry; apply Nat.ltb_ge; lia).
      rewrite nth_error_app, Hlen.
      replace (3 * n + j - n - n <? n)%nat with false
        by (symmetry; apply Nat.ltb_ge; lia).
      replace (3 * n + j - n - n - n)%nat with j by lia.
      exact Hx.
Qed.

(** The label of the long-table row that row [j] of the wide table gets in
    the block of KPI column [c]. *)
Definition label (w : list Row) (c : kpi_column) (j : nat) : nat :=
  (block c * List.length w + j)%nat.

Lemma label_inj (w : list Row) (c c' : kpi_column) (j j' : nat) :
  (j < List.length w)%nat -> (j' < List.length w)%nat ->
  label w c j = label w c' j' -> c = c' /\ j = j'.
Proof.
  unfold label. intros Hj Hj' H.
  destruct c, c'; simpl in H; (split; [ reflexivity || (exfalso; lia) | lia ]).
Qed.

Lemma in_long (w : list Row) (i : nat) (m : Melted * option Z) :
  In (i, m) (long w)
  <-> exists c j r,
        nth_error w j = Some r /\ i = label w c j
        /\ m = (mkMelted (meta r) (fechas r) (kpi_name c) (get_kpi c r),
                first_year w c).
Proof.
  unfold long. rewrite in_with_index, Nat.sub_0_r.
  rewrite (nth_error_blocks
             (fun c r => (mkMelted (meta r) (fechas r) (kpi_name c) (get_kpi c r),
                          first_year w c))).
  unfold label. split.
  - intros [_ H]. exact H.
  - intros H. split; [ lia | exact H ].
Qed.

(** The rows of the long table that pass the filter of line 75, as they are
    returned. *)
Lemma in_output (w : list Row) (i : nat) (o : Observation) :
  In (i, o) (map to_observation (filter keep (long w)))
  <-> exists c j r v,
        nth_error w j = Some r /\ i = label w c j
        /\ get_kpi c r = Some v /\ 0 <= v
        /\ o = mkObservation (meta r) (kpi_name c) (Some v) (first_year w c).
Proof.
  rewrite in_map_iff. split.
  - intros [[i' [x y]] [Ho Hin]]. apply filter_In in Hin.
    destruct Hin as [Hin Hk]. simpl in Ho. injection Ho as -> <-.
    apply in_long in Hin. destruct Hin as [c [j [r [Hr [Hi Hm]]]]].
    injection Hm as -> ->. unfold keep in Hk. simpl in Hk.
    destruct (get_kpi c r) as [v | ] eqn:Ev; simpl in Hk; [ | discriminate ].
    apply Z.leb_le in Hk.
    exists c, j, r, v. simpl. auto.
  - intros [c [j [r [v [Hr [Hi [Hv [Hge ->]]]]]]]].
    exists (i, (mkMelted (meta r) (fechas r) (kpi_name c) (get_kpi c r),
                first_year w c)).
    split; [ simpl; rewrite Hv; reflexivity | ].
    apply filter_In. split.
    + apply in_long. exists c, j, r. auto.
    + unfold keep. simpl. rewrite Hv. simpl. apply Z.leb_le. exact Hge.
Qed.

(** ** Properties of [relativedelta] *)

Lemma date_bounds (d : date) :
  1 <= month d <= 12 /\ 1 <= day d <= monthrange (year d) (month d).
Proof.
  pose proof (date_ok d) as H. unfold valid_ymd in H.
  repeat (apply andb_true_iff in H; destruct H as [H ?]). lia.
Qed.

Lemma set_months_total (m : Z) :
  12 * years (set_months m) + months (set_months m) = m.
Proof.
  unfold set_months, sign.
  destruct (Z.gtb_spec (Z.abs m) 11); cbn [years months]; [ | lia ].
  destruct (Z.ltb_spec m 0).
  - Z.div_mod_to_equations. lia.
  - Z.div_mod_to_equations. lia.
Qed.

Lemma set_months_bound (m : Z) : -11 <= months (set_months m) <= 11.
Proof.
  unfold set_months, sign.
  destruct (Z.gtb_spec (Z.abs m) 11); cbn [years months]; [ | lia ].
  destruct (Z.ltb_spec m 0).
  - Z.div_mod_to_equations. lia.
  - Z.div_mod_to_equations. lia.
Qed.

(** The months component has the sign of the month count. *)
Lemma set_months_sign (m : Z) :
  (0 <= m -> 0 <= months (set_months m))
  /\ (m <= 0 -> months (set_months m) <= 0).
Proof.
  unfold set_months, sign.
  destruct (Z.gtb_spec (Z.abs m) 11); cbn [years months]; [ | lia ].
  destruct (Z.ltb_spec m 0).
  - Z.div_mod_to_equations. lia.
  - Z.div_mod_to_equations. lia.
Qed.

(** [dt2] moved by [m] months lands in the month that lies [m] months after
    its own. *)
Lemma radd_spec (m : Z) (dt2 : date) :
  exists Y M,
    radd (set_months m) dt2 = (Y, M, Z.min (monthrange Y M) (day dt2))
    /\ 12 * Y + M = 12 * year dt2 + month dt2 + m
    /\ 1 <= M <= 12.
Proof.
  pose proof (date_bounds dt2) as [Hm _].
  pose proof (set_months_total m) as Ht.
  pose proof (set_months_bound m) as Hb.
  unfold radd.
  destruct (Z.eqb_spec (months (set_months m)) 0) as [E0 | E0].
  - eexists. eexists. split; [ reflexivity | lia ].
  - destruct (Z.gtb_spec (month dt2 + months (set_months m)) 12).
    + eexists. eexists. split; [ reflexivity | lia ].
    + destruct (Z.ltb_spec (month dt2 + months (set_months m)) 1).
      * eexists. eexists. split; [ reflexivity | lia ].
      * eexists. eexists. split; [ reflexivity | lia ].
Qed.

Lemma ymd_ltb_spec (a b : Z * Z * Z) :
  ymd_ltb a b = true
  <-> (let '(ya, ma, da) := a in
       let '(yb, mb, db) := b in
       ya < yb \/ (ya = yb /\ (ma < mb \/ (ma = mb /\ da < db)))).
Proof.
  destruct a as [[ya ma] da], b as [[yb mb] db]. unfold ymd_ltb.
  rewrite !orb_true_iff, !andb_true_iff, !orb_true_iff, !andb_true_iff.
  rewrite !Z.ltb_lt, !Z.eqb_eq. reflexivity.
Qed.

(** The loop leaves after one round at the latest, whichever way it steps. *)
Lemma adjust_one_round (dt1 dt2 : date) (gt : bool) (m : Z) :
  m = (year dt1 - year dt2) * 12 + (month dt1 - month dt2) ->
  exists m', adjust 1 dt1 dt2 gt (if gt then 1 else -1) m = Some m'.
Proof.
  intros Hm. pose proof (date_bounds dt1) as [Hm1 Hd1].
  cbn [adjust].
  destruct (radd_spec m dt2) as [Y [M [E [HY HM]]]]. rewrite E.
  assert (Y = year dt1 /\ M = month dt1) as [-> ->] by lia.
  destruct gt.
  - match goal with
    | |- context [if ?b then _ else Some m] => destruct b eqn:C
    end; [ | eexists; reflexivity ].
    destruct (radd_spec (m + 1) dt2) as [Y' [M' [E' [HY' HM']]]]. rewrite E'.
    match goal with
    | |- context [if ?b then None else _] => destruct b eqn:C'
    end; [ | eexists; reflexivity ].
    exfalso. apply ymd_ltb_spec in C'. unfold ymd in C'. lia.
  - match goal with
    | |- context [if ?b then _ else Some m] => destruct b eqn:C
    end; [ | eexists; reflexivity ].
    destruct (radd_spec (m + -1) dt2) as [Y' [M' [E' [HY' HM']]]]. rewrite E'.
    match goal with
    | |- context [if ?b then None else _] => destruct b eqn:C'
    end; [ | eexists; reflexivity ].
    exfalso. apply ymd_ltb_spec in C'. unfold ymd in C'. lia.
Qed.

Lemma adjust_more_fuel (fuel : nat) (dt1 dt2 : date) (gt : bool)
  (increment m m' : Z) :
  adjust fuel dt1 dt2 gt increment m = Some m' ->
  adjust (S fuel) dt1 dt2 gt increment m = Some m'.
Proof.
  revert m. induction fuel as [ | fuel IH]; intros m H.
  - simpl in H. simpl.
    destruct (if gt then _ else _); [ discriminate | exact H ].
  - simpl in H. change (adjust (S (S fuel)) dt1 dt2 gt increment m) with
      (if (if gt then ymd_ltb (radd (set_months m) dt2) (ymd dt1)
           else ymd_ltb (ymd dt1) (radd (set_months m) dt2))
       then adjust (S fuel) dt1 dt2 gt increment (m + increment)
       else Some m).
    destruct (if gt then _ else _); [ | exact H ].
    apply IH. exact H.
Qed.

(** [relativedelta(dt1, dt2)] returns: one round of fuel gives a result, and
    more fuel gives the same one. *)
Lemma relativedelta_fuel_enough (dt1 dt2 : date) (fuel : nat) :
  (1 <= fuel)%nat ->
  relativedelta_fuel fuel dt1 dt2 = Some (relativedelta_of dt1 dt2).
Proof.
  intros Hf. unfold relativedelta_of.
  assert (H1 : exists rd, relativedelta_fuel 1 dt1 dt2 = Some rd).
  { unfold relativedelta_fuel.
    destruct (date_ltb dt1 dt2).
    - destruct (adjust_one_round dt1 dt2 true _ eq_refl) as [m' E].
      rewrite E. eexists. reflexivity.
    - destruct (adjust_one_round dt1 dt2 false _ eq_refl) as [m' E].
      rewrite E. eexists. reflexivity. }
  destruct H1 as [rd E]. rewrite E.
  induction Hf as [ | fuel Hf IH]; [ exact E | ].
  unfold relativedelta_fuel in *.
  destruct (date_ltb dt1 dt2).
  - destruct (adjust fuel dt1 dt2 true 1 _) as [m' | ] eqn:Ea;
      [ | discriminate ].
    rewrite (adjust_more_fuel _ _ _ _ _ _ _ Ea). exact IH.
  - destruct (adjust fuel dt1 dt2 false (-1) _) as [m' | ] eqn:Ea;
      [ | discriminate ].
    rewrite (adjust_more_fuel _ _ _ _ _ _ _ Ea). exact IH.
Qed.

(** The months component never exceeds eleven months either way. *)
Lemma relativedelta_months_bound (dt1 dt2 : date) :
  -11 <= months (relativedelta_of dt1 dt2) <= 11.
Proof.
  pose proof (relativedelta_fuel_enough dt1 dt2 1 (le_n 1)) as H.
  unfold relativedelta_fuel in H.
  destruct (date_ltb dt1 dt2);
    destruct (adjust 1 dt1 dt2 _ _ _) as [m' | ]; simpl in H; try discriminate;
    injection H as <-; apply set_months_bound.
Qed.

Lemma ymd_ltb_irrefl (a : Z * Z * Z) : ymd_ltb a a = false.
Proof.
  destruct (ymd_ltb a a) eqn:E; [ | reflexivity ].
  apply ymd_ltb_spec in E. destruct a as [[y m] d]. lia.
Qed.

(** Two equal dates are zero months apart. *)
Lemma relativedelta_same (d : date) : relativedelta_of d d = mkdelta 0 0.
Proof.
  pose proof (date_bounds d) as [Hm Hd].
  unfold relativedelta_of, relativedelta_fuel, date_ltb.
  rewrite ymd_ltb_irrefl.
  replace ((year d - year d) * 12 + (month d - month d)) with 0 by lia.
  cbn [adjust].
  destruct (radd_spec 0 d) as [Y [M [E [HY HM]]]]. rewrite E.
  assert (Y = year d /\ M = month d) as [-> ->] by lia.
  rewrite Z.min_r by lia. fold (ymd d). rewrite ymd_ltb_irrefl. reflexivity.
Qed.

(** ** Properties of [drop_duplicates] *)

Definition dedup_from (seen rs : list Row) : list Row :=
  select_mask (map negb (duplicated_from seen rs)) rs.

Lemma dedup_from_cons (seen : list Row) (r : Row) (rs : list Row) :
  dedup_from seen (r :: rs)
  = if seen_before r seen then dedup_from (r :: seen) rs
    else r :: dedup_from (r :: seen) rs.
Proof.
  unfold dedup_from. simpl. destruct (seen_before r seen); reflexivity.
Qed.

Lemma seen_before_true (r : Row) (seen : list Row) :
  seen_before r seen = true <-> In r seen.
Proof.
  unfold seen_before. destruct (in_dec Row_eq_dec r seen); split; intros H;
    try reflexivity; try assumption; try discriminate; contradiction.
Qed.

Lemma seen_before_ext (r : Row) (s1 s2 : list Row) :
  (forall x, In x s1 <-> In x s2) -> seen_before r s1 = seen_before r s2.
Proof.
  intros H. destruct (seen_before r s2) eqn:E.
  - apply seen_before_true. apply H. apply seen_before_true. exact E.
  - destruct (seen_before r s1) eqn:E1; [ | reflexivity ].
    apply seen_before_true in E1. apply H in E1.
    apply seen_before_true in E1. congruence.
Qed.

Lemma dedup_from_ext (rs s1 s2 : list Row) :
  (forall x, In x s1 <-> In x s2) -> dedup_from s1 rs = dedup_from s2 rs.
Proof.
  revert s1 s2. induction rs as [ | r rs IH]; intros s1 s2 H;
    [ reflexivity | ].
  rewrite !dedup_from_cons. rewrite (seen_before_ext r s1 s2 H).
  rewrite (IH (r :: s1) (r :: s2)); [ reflexivity | ].
  intros x. simpl. rewrite H. reflexivity.
Qed.

Lemma in_dedup_from (seen rs : list Row) (x : Row) :
  In x (dedup_from seen rs) <-> In x rs /\ ~ In x seen.
Proof.
  revert seen. induction rs as [ | r rs IH]; intros seen.
  - simpl. tauto.
  - rewrite dedup_from_cons.
    destruct (seen_before r seen) eqn:E.
    + apply seen_before_true in E. rewrite IH. simpl.
      split.
      * intros [Hx Hn]. split; [ right; exact Hx | tauto ].
      * intros [[-> | Hx] Hn]; [ contradiction | ].
        split; [ exact Hx | ]. intros [-> | Hs]; contradiction.
    + assert (Hn : ~ In r seen).
      { intros Hs. apply seen_before_true in Hs. congruence. }
      simpl. rewrite IH. simpl.
      destruct (Row_eq_dec r x) as [-> | Hne].
      * tauto.
      * split.
        -- intros [Hx | [Hx Hs]]; [ contradiction | ]. tauto.
        -- intros [[Hx | Hx] Hs]; [ contradiction | ]. right. tauto.
Qed.

Lemma NoDup_dedup_from (seen rs : list Row) : NoDup (dedup_from seen rs).
Proof.
  revert seen. induction rs as [ | r rs IH]; intros seen.
  - constructor.
  - rewrite dedup_from_cons. destruct (seen_before r seen); [ apply IH | ].
    constructor; [ | apply IH ].
    rewrite in_dedup_from. simpl. tauto.
Qed.

(** A second copy of a row that was already seen changes nothing. *)
Lemma dedup_from_seen_copy (seen t2 t3 : list Row) (r : Row) :
  In r seen ->
  dedup_from seen (t2 ++ r :: t3) = dedup_from seen (t2 ++ t3).
Proof.
  revert seen. induction t2 as [ | x t2 IH]; intros seen Hr; simpl.
  - rewrite dedup_from_cons.
    replace (seen_before r seen) with true
      by (symmetry; apply seen_before_true; exact Hr).
    apply dedup_from_ext. intros x. simpl. split; [ | tauto ].
    intros [-> | H]; assumption.
  - rewrite !dedup_from_cons.
    rewrite (IH (x :: seen)) by (right; exact Hr). reflexivity.
Qed.

Lemma dedup_from_copy (seen t1 t2 t3 : list Row) (r : Row) :
  dedup_from seen (t1 ++ r :: t2 ++ r :: t3)
  = dedup_from seen (t1 ++ r :: t2 ++ t3).
Proof.
  revert seen. induction t1 as [ | x t1 IH]; intros seen; simpl.
  - rewrite !dedup_from_cons.
    rewrite (dedup_from_seen_copy (r :: seen)) by (left; reflexivity).
    reflexivity.
  - rewrite !dedup_from_cons. rewrite IH. reflexivity.
Qed.

Lemma rows_drop_duplicates (data : DataFrame) :
  rows (drop_duplicates data) = dedup_from [] (rows data).
Proof. reflexivity. Qed.

(** A table without repeated rows is left as it is. *)
Lemma dedup_from_NoDup (seen rs : list Row) :
  NoDup rs -> (forall x, In x rs -> ~ In x seen) -> dedup_from seen rs = rs.
Proof.
  revert seen. induction rs as [ | r rs IH]; intros seen Hnd Hs;
    [ reflexivity | ].
  rewrite dedup_from_cons. inversion Hnd as [ | ? ? Hr Hnd']; subst.
  destruct (seen_before r seen) eqn:E.
  - apply seen_before_true in E. exfalso. apply (Hs r); [ left | ]; auto.
  - f_equal. apply IH; [ exact Hnd' | ].
    intros x Hx [-> | Hin]; [ contradiction | ].
    apply (Hs x); [ right | ]; assumption.
Qed.

(** The first row of a table survives, in first place. *)
Lemma dedup_head (r : Row) (rs : list Row) :
  exists rest, dedup_from [] (r :: rs) = r :: rest.
Proof. rewrite dedup_from_cons. simpl. eexists. reflexivity. Qed.

(** ** When the two functions raise *)

Lemma schema_missing_date_or_id (data : DataFrame) :
  schema_ok data = false ->
  (exists c, has_column data (date_name c) = false)
  \/ (forall c, has_column data (date_name c) = true).
Proof.
  intros _.
  destruct (forallb (fun c => has_column data (date_name c)) date_columns) eqn:E.
  - right. rewrite forallb_forall in E. intros c. apply E.
    destruct c; simpl; tauto.
  - left. apply not_true_iff_false in E.
    destruct (has_column data (date_name cFecha_CartaConsulta)) eqn:E1;
      [ | eexists; exact E1 ].
    destruct (has_column data (date_name cFechaAprobacion)) eqn:E2;
      [ | eexists; exact E2 ].
    destruct (has_column data (date_name cFechaVigencia)) eqn:E3;
      [ | eexists; exact E3 ].
    destruct (has_column data (date_name cFechaElegibilidad)) eqn:E4;
      [ | eexists; exact E4 ].
    destruct (has_column data (date_name cFechadePrimerDesembolso)) eqn:E5;
      [ | eexists; exact E5 ].
    exfalso. apply E. unfold date_columns. cbn [forallb].
    rewrite E1, E2, E3, E4, E5. reflexivity.
Qed.

Lemma date_name_required (c : date_column) : In (date_name c) required_columns.
Proof. destruct c; simpl; tauto. Qed.

Section Raising.

Variable strptime : string -> option date.
Variable infer : list cell -> string -> option date.

(** [transform_data] on a table that lacks one of the twelve columns: a
    [KeyError] that names missing required columns, and nothing else. *)
Lemma transform_data_raises (data : DataFrame) :
  schema_ok data = false ->
  exists name missing,
    transform_data infer data = Raise (KeyError (name :: missing))
    /\ forall x, In x (name :: missing) ->
         In x required_columns /\ has_column data x = false.
Proof.
  intros H. destruct (schema_missing_date_or_id data H) as [Hmiss | Hall].
  - unfold transform_data, to_datetime_infer. cbv zeta.
    destruct (convert_loop_raises (fun s => to_datetime (infer s))
                (drop_duplicates data) Hmiss) as [c [Hc E]].
    rewrite E. simpl bind. exists (date_name c), [].
    split; [ reflexivity | ].
    intros x [<- | []]. split; [ apply date_name_required | exact Hc ].
  - unfold transform_data, to_datetime_infer. cbv zeta.
    assert (Hc : columns (drop_duplicates data) = columns data) by reflexivity.
    assert (Hd : forall c,
               has_column (drop_duplicates data) (date_name c) = true)
      by exact Hall.
    revert Hc Hd. generalize (drop_duplicates data) as dd. intros dd Hc Hd.
    rewrite (convert_loop (fun s => to_datetime (infer s)) _ Hd). simpl bind.
    pose proof (assign_four_kpis months_or_none
      (mkFrame (columns dd)
         (map (convert_row
                 (fun c => to_datetime (infer (map (get_fecha c) (rows dd)))))
              (rows dd)))) as E.
    cbv zeta in E |- *. rewrite E. clear E. simpl columns. simpl rows.
    rewrite Hc.
    match goal with
    | |- context [melt (mkFrame _ ?w)] =>
        destruct (melt_missing (columns data) w H) as [name [missing [E Hm]]]
    end.
    rewrite E. simpl bind. exists name, missing. split; [ reflexivity | ].
    exact Hm.
Qed.

(** [transform_data] returns exactly on the tables that have the twelve
    columns. *)
Lemma transform_data_returns (data : DataFrame)
  (out : list (nat * Observation)) :
  transform_data infer data = Ok out ->
  schema_ok data = true
  /\ out = map to_observation (filter keep (long (wide infer data))).
Proof.
  intros H. destruct (schema_ok data) eqn:E.
  - rewrite (transform_data_ok infer data E) in H. injection H as <-.
    split; reflexivity.
  - destruct (transform_data_raises data E) as [name [missing [Hr _]]].
    congruence.
Qed.

End Raising.

(** ** The pipeline of [main] *)

Lemma kpi_name_not_required (x : string) :
  In x required_columns ->
  existsb (String.eqb x) (map kpi_name value_vars) = false.
Proof.
  intros H. simpl in H.
  repeat (destruct H as [<- | H]; [ reflexivity | ]). contradiction.
Qed.

Lemma has_column_kpi_added_required (cols : list string) (rs rs' : list Row)
  (x : string) :
  In x required_columns ->
  has_column (mkFrame (kpi_columns_added cols) rs') x
  = has_column (mkFrame cols rs) x.
Proof.
  intros H. rewrite has_column_kpi_added, (kpi_name_not_required x H).
  rewrite orb_false_r. reflexivity.
Qed.

Lemma schema_ok_kpi_added (cols : list string) (rs rs' : list Row) :
  schema_ok (mkFrame (kpi_columns_added cols) rs')
  = schema_ok (mkFrame cols rs).
Proof.
  unfold schema_ok.
  assert (H : forall l, (forall x, In x l -> In x required_columns) ->
            forallb (has_column (mkFrame (kpi_columns_added cols) rs')) l
            = forallb (has_column (mkFrame cols rs)) l).
  { induction l as [ | a l IH]; intros Hl; [ reflexivity | ].
    simpl forallb.
    rewrite (has_column_kpi_added_required cols rs rs' a)
      by (apply Hl; left; reflexivity).
    rewrite IH by (intros x Hx; apply Hl; right; exact Hx). reflexivity. }
  apply H. intros x Hx. exact Hx.
Qed.

Lemma kpi_columns_added_idem (cols : list string) :
  kpi_columns_added (kpi_columns_added cols) = kpi_columns_added cols.
Proof.
  assert (H : forall c,
            existsb (String.eqb (kpi_name c)) (kpi_columns_added cols) = true).
  { intros c.
    pose proof (has_column_kpi_added cols [] (kpi_name c)) as E.
    unfold has_column in E. simpl columns in E. rewrite E.
    destruct c; simpl; rewrite ?orb_true_r; reflexivity. }
  generalize (kpi_columns_added cols) as l, H. intros l Hl.
  unfold kpi_columns_added, value_vars. simpl.
  rewrite (add_column_present l) by apply (Hl cKPI_Aprobacion).
  rewrite (add_column_present l) by apply (Hl cKPI_Vigencia).
  rewrite (add_column_present l) by apply (Hl cKPI_Elegibilidad).
  rewrite (add_column_present l) by apply (Hl cKPI_Primer_Desembolso).
  reflexivity.
Qed.

Section Main.

Variable strptime : string -> option date.
Variable infer : list cell -> string -> option date.

(** The table the caller holds once [calculate_kpis] has run. *)
Definition after_calculate (data : DataFrame) : DataFrame :=
  mkFrame (kpi_columns_added (columns data))
          (map (approx_row strptime) (rows data)).

Lemma schema_ok_after_calculate (data : DataFrame) :
  schema_ok (after_calculate data) = schema_ok data.
Proof.
  destruct data as [cols rs]. unfold after_calculate. simpl.
  apply schema_ok_kpi_added.
Qed.

Lemma pipeline_ok (data : DataFrame) :
  schema_ok data = true ->
  pipeline strptime infer data
  = Ok (after_calculate data,
        map to_observation
            (filter keep (long (wide infer (after_calculate data))))).
Proof.
  intros H. unfold pipeline.
  rewrite (calculate_kpis_ok strptime data)
    by (intros c; apply schema_ok_date; exact H).
  simpl bind. fold (after_calculate data).
  rewrite (transform_data_ok infer (after_calculate data))
    by (rewrite schema_ok_after_calculate; exact H).
  reflexivity.
Qed.

Lemma pipeline_raises (data : DataFrame) :
  schema_ok data = false ->
  exists name missing,
    pipeline strptime infer data = Raise (KeyError (name :: missing))
    /\ forall x, In x (name :: missing) ->
         In x required_columns /\ has_column data x = false.
Proof.
  intros H. unfold pipeline.
  destruct (schema_missing_date_or_id data H) as [Hmiss | Hall].
  - unfold calculate_kpis, to_datetime_format.
    destruct (convert_loop_raises (fun _ => to_datetime strptime) data Hmiss)
      as [c [Hc E]].
    rewrite E. simpl bind. exists (date_name c), [].
    split; [ reflexivity | ].
    intros x [<- | []]. split; [ apply date_name_required | exact Hc ].
  - rewrite (calculate_kpis_ok strptime data Hall). simpl bind.
    fold (after_calculate data).
    assert (H' : schema_ok (after_calculate data) = false)
      by (rewrite schema_ok_after_calculate; exact H).
    destruct (transform_data_raises infer (after_calculate data) H')
      as [name [missing [E Hm]]].
    rewrite E. simpl bind. exists name, missing. split; [ reflexivity | ].
    intros x Hx. destruct (Hm x Hx) as [Hreq Hcol]. split; [ exact Hreq | ].
    destruct data as [cols rs]. unfold after_calculate in Hcol.
    simpl columns in Hcol. simpl rows in Hcol.
    rewrite (has_column_kpi_added_required cols rs _ x Hreq) in Hcol.
    exact Hcol.
Qed.

(** What a run of [main] that returns has done: [transform_data] ran on the
    table [calculate_kpis] left. *)
Lemma pipeline_returns (data data' : DataFrame)
  (out : list (nat * Observation)) :
  pipeline strptime infer data = Ok (data', out) ->
  schema_ok data = true
  /\ data' = after_calculate data
  /\ transform_data infer data' = Ok out.
Proof.
  intros H. destruct (schema_ok data) eqn:E.
  - rewrite (pipeline_ok data E) in H. injection H as <- <-.
    split; [ reflexivity | ]. split; [ reflexivity | ].
    apply transform_data_ok. rewrite schema_ok_after_calculate. exact E.
  - destruct (pipeline_raises data E) as [name [missing [Hr _]]]. congruence.
Qed.

End Main.

(** ** Two layouts, for the examples

    [strptime_dmY] reads the digits of ['%d/%m/%Y']: one or two for the day,
    one or two for the month, four for the year, and refuses a date the
    calendar does not have. [parse_iso] reads [YYYY-MM-DD], one of the
    layouts the parse without a layout accepts. *)

Definition digit (a : ascii) : option Z :=
  let n := Z.of_nat (nat_of_ascii a) in
  if (48 <=? n) && (n <=? 57) then Some (n - 48) else None.

Fixpoint digits (acc : Z) (s : string) : option Z :=
  match s with
  | EmptyString => Some acc
  | String a s' =>
      match digit a with
      | Some d => digits (acc * 10 + d) s'
      | None => None
      end
  end.

(** The text up to the first [sep], and the text after it. *)
Fixpoint split_at (sep : ascii) (s : string) : option (string * string) :=
  match s with
  | EmptyString => None
  | String a s' =>
      if Ascii.eqb a sep then Some (EmptyString, s')
      else match split_at sep s' with
           | Some (l, r) => Some (String a l, r)
           | None => None
           end
  end.

Definition number (lo hi : nat) (s : string) : option Z :=
  if (lo <=? String.length s)%nat && (String.length s <=? hi)%nat
  then digits 0 s else None.

Definition strptime_dmY (s : string) : option date :=
  match split_at "/" s with
  | Some (d, rest) =>
      match split_at "/" rest with
      | Some (m, y) =>
          match number 1 2 d, number 1 2 m, number 4 4 y with
          | Some d, Some m, Some y => make_date y m d
          | _, _, _ => None
          end
      | None => None
      end
  | None => None
  end.

Definition parse_iso (s : string) : option date :=
  match split_at "-" s with
  | Some (y, rest) =>
      match split_at "-" rest with
      | Some (m, d) =>
          match number 4 4 y, number 2 2 m, number 2 2 d with
          | Some y, Some m, Some d => make_date y m d
          | _, _, _ => None
          end
      | None => None
      end
  | None => None
  end.

Definition infer_iso (column : list cell) (s : string) : option date :=
  parse_iso s.

(** ** The rows of the wide table *)

Lemma get_fecha_convert_row (conv : date_column -> cell -> cell) (r : Row)
  (c : date_column) :
  get_fecha c (convert_row conv r) = conv c (get_fecha c r).
Proof. destruct c; reflexivity. Qed.

Lemma get_fecha_assign_kpis (f : cell -> cell -> option Z) (r : Row)
  (c : date_column) :
  get_fecha c (assign_kpis f r) = get_fecha c r.
Proof. destruct c; reflexivity. Qed.

Lemma get_kpi_assign_kpis (f : cell -> cell -> option Z) (r : Row)
  (c : kpi_column) :
  get_kpi c (assign_kpis f r)
  = f (get_fecha (later c) r) (get_fecha (earlier c) r).
Proof. destruct c; reflexivity. Qed.

Lemma to_datetime_not_text (parse : string -> option date) (c : cell)
  (s : string) :
  to_datetime parse c <> Text s.
Proof.
  destruct c as [t | d | ]; simpl; try discriminate.
  destruct (parse t); discriminate.
Qed.

Lemma to_datetime_typed (parse parse' : string -> option date) (c : cell) :
  to_datetime parse' (to_datetime parse c) = to_datetime parse c.
Proof.
  destruct c as [t | d | ]; simpl; try reflexivity.
  destruct (parse t); reflexivity.
Qed.

Lemma months_or_none_None (l e : cell) :
  (forall s, l <> Text s) -> (forall s, e <> Text s) ->
  (months_or_none l e = None <-> l = NaT \/ e = NaT).
Proof.
  intros Hl He. destruct l as [s | dl | ]; [ destruct (Hl s eq_refl) | | ];
    destruct e as [s | de | ]; try (destruct (He s eq_refl)); simpl;
    split; intros H; try discriminate; try tauto;
    destruct H; discriminate.
Qed.

Section Wide.

Variable infer : list cell -> string -> option date.

(** What lines 43-53 make of one input row. *)
Definition widen (data : DataFrame) (r : Row) : Row :=
  assign_kpis months_or_none (normalise infer (rows (drop_duplicates data)) r).

Lemma in_wide (data : DataFrame) (r : Row) :
  In r (wide infer data)
  <-> exists r0, In r0 (rows data) /\ r = widen data r0.
Proof.
  unfold wide, widen. rewrite in_map_iff. split.
  - intros [r0 [<- H]]. exists r0. split; [ | reflexivity ].
    rewrite rows_drop_duplicates in H. apply in_dedup_from in H. tauto.
  - intros [r0 [H ->]]. exists r0. split; [ reflexivity | ].
    rewrite rows_drop_duplicates. apply in_dedup_from. simpl. tauto.
Qed.

Lemma meta_widen (data : DataFrame) (r : Row) : meta (widen data r) = meta r.
Proof. reflexivity. Qed.

Lemma wide_kpi (data : DataFrame) (r : Row) (c : kpi_column) :
  In r (wide infer data) ->
  get_kpi c r = months_or_none (get_fecha (later c) r) (get_fecha (earlier c) r).
Proof.
  intros H. apply in_wide in H. destruct H as [r0 [_ ->]]. unfold widen.
  rewrite get_kpi_assign_kpis, !get_fecha_assign_kpis. reflexivity.
Qed.

Lemma wide_no_text (data : DataFrame) (r : Row) (c : date_column) (s : string) :
  In r (wide infer data) -> get_fecha c r <> Text s.
Proof.
  intros H. apply in_wide in H. destruct H as [r0 [_ ->]]. unfold widen.
  rewrite get_fecha_assign_kpis. unfold normalise.
  rewrite get_fecha_convert_row. apply to_datetime_not_text.
Qed.

(** Every row of the input stands somewhere in the wide table. *)
Lemma input_row_position (data : DataFrame) (r0 : Row) :
  In r0 (rows data) ->
  exists j, nth_error (wide infer data) j = Some (widen data r0).
Proof.
  intros H. apply In_nth_error. apply in_wide. exists r0. auto.
Qed.

End Wide.

(** ** Example tables *)

Definition header : list string := required_columns.

Definition no_kpis : KPIs := mkKPIs None None None None.

Definition stage_meta (id : string) (no : Z) : Meta :=
  mkMeta (Str id) (Num no) (Str "AR") (Str "Vigente") (Str id) (Str "SOC")
         (Str "EDU").

Definition d_2020_01_10 : date := mkdate 2020 1 10 eq_refl.
Definition d_2020_04_10 : date := mkdate 2020 4 10 eq_refl.
Definition d_2021_01_15 : date := mkdate 2021 1 15 eq_refl.
Definition d_2021_03_15 : date := mkdate 2021 3 15 eq_refl.
Definition d_2021_04_10 : date := mkdate 2021 4 10 eq_refl.
Definition d_2021_05_01 : date := mkdate 2021 5 1 eq_refl.
Definition d_2021_06_01 : date := mkdate 2021 6 1 eq_refl.
Definition d_2021_09_01 : date := mkdate 2021 9 1 eq_refl.

(** The scenario of the negative duration: eligibility on 2021-06-01, first
    disbursement on 2021-05-01. *)
Definition late_eligibility : DataFrame :=
  mkFrame header
    [mkRow (stage_meta "E1" 1)
           (mkFechas NaT NaT NaT (Timestamp d_2021_06_01)
                     (Timestamp d_2021_05_01))
           no_kpis].

(** A row without an approval date whose later milestones are all there. *)
Definition no_approval : DataFrame :=
  mkFrame header
    [mkRow (stage_meta "E2" 1)
           (mkFechas (Timestamp d_2020_01_10) NaT (Timestamp d_2021_05_01)
                     (Timestamp d_2021_06_01) (Timestamp d_2021_09_01))
           no_kpis].

(** ** The filter of line 75 *)

Section Filter.

Variable infer : list cell -> string -> option date.

(** C3. Every observation [transform_data] returns has a KPI value, and the
    value is at least zero; a row of the melted table whose KPI value is
    missing or below zero is not returned under any value, and one whose
    value is zero or more is returned with that very value. In the scenario
    of an eligibility on 2021-06-01 and a first disbursement on 2021-05-01
    the value is -1 and the table returned is empty. *)
Theorem kpi_filter_keeps_nonnegative (data : DataFrame)
  (out : list (nat * Observation)) :
  transform_data infer data = Ok out ->
  (forall i o, In (i, o) out -> exists v, obs_KPI o = Some v /\ 0 <= v)
  /\ (forall i x y,
        In (i, (x, y)) (long (wide infer data)) ->
        KPI x = None \/ (exists v, KPI x = Some v /\ v < 0) ->
        forall o, ~ In (i, o) out)
  /\ (forall i x y v,
        In (i, (x, y)) (long (wide infer data)) ->
        KPI x = Some v -> 0 <= v ->
        In (i, mkObservation (id_meta x) (Estaciones x) (Some v) y) out)
  /\ months_or_none (Timestamp d_2021_05_01) (Timestamp d_2021_06_01)
     = Some (-1)
  /\ transform_data infer late_eligibility = Ok [].
Proof.
  intros H. apply transform_data_returns in H. destruct H as [_ ->].
  set (w := wide infer data).
  split; [ | split; [ | split; [ | split ] ] ].
  - intros i o Hin. apply in_output in Hin.
    destruct Hin as [c [j [r [v [_ [_ [_ [Hv ->]]]]]]]].
    exists v. split; [ reflexivity | exact Hv ].
  - intros i x y Hin Hbad o Ho. apply in_output in Ho.
    destruct Ho as [c [j [r [v [Hr [Hi [Hk [Hv _]]]]]]]].
    apply in_long in Hin. destruct Hin as [c' [j' [r' [Hr' [Hi' Hm]]]]].
    injection Hm as -> ->. simpl in Hbad.
    assert (Hj : (j < List.length w)%nat)
      by (apply nth_error_Some; congruence).
    assert (Hj' : (j' < List.length w)%nat)
      by (apply nth_error_Some; congruence).
    rewrite Hi in Hi'. apply label_inj in Hi'; [ | assumption | assumption ].
    destruct Hi' as [-> ->]. rewrite Hr in Hr'. injection Hr' as <-.
    rewrite Hk in Hbad. destruct Hbad as [Hn | [v' [Hv' Hlt]]];
      [ discriminate | ].
    injection Hv' as <-. lia.
  - intros i x y v Hin Hk Hv. apply in_output.
    apply in_long in Hin. destruct Hin as [c [j [r [Hr [Hi Hm]]]]].
    injection Hm as -> ->. simpl in Hk.
    exists c, j, r, v. simpl. auto.
  - reflexivity.
  - reflexivity.
Qed.

End Filter.

Lemma kpi_filter_keeps_nonnegative_witness :
  transform_data infer_iso no_approval
  = Ok [(2%nat, mkObservation (stage_meta "E2" 1) "KPI Elegibilidad" (Some 1)
                              (Some 2021));
        (3%nat, mkObservation (stage_meta "E2" 1) "KPI Primer Desembolso"
                              (Some 3) (Some 2021))]
  /\ forall i o,
       In (i, o)
          [(2%nat, mkObservation (stage_meta "E2" 1) "KPI Elegibilidad" (Some 1)
                                 (Some 2021));
           (3%nat, mkObservation (stage_meta "E2" 1) "KPI Primer Desembolso"
                                 (Some 3) (Some 2021))] ->
       exists v, obs_KPI o = Some v /\ 0 <= v.
Proof.
  split; [ reflexivity | ].
  apply (kpi_filter_keeps_nonnegative infer_iso no_approval). reflexivity.
Defined.

(** ** The range of the KPI values *)

(** A table whose two milestones are four years and one month apart. *)
Definition four_years : DataFrame :=
  mkFrame header
    [mkRow (stage_meta "E3" 1)
           (mkFechas (Timestamp (mkdate 2017 3 10 eq_refl))
                     (Timestamp d_2021_04_10) NaT NaT NaT)
           no_kpis].

Section Range.

Variable infer : list cell -> string -> option date.

(** C10. Every observation [transform_data] returns has a KPI value between
    0 and 11: the value is the months component of the calendar delta, whose
    years component is left out, however many years lie between the two
    dates. *)
Theorem kpi_value_at_most_eleven (data : DataFrame)
  (out : list (nat * Observation)) :
  transform_data infer data = Ok out ->
  forall i o, In (i, o) out -> exists v, obs_KPI o = Some v /\ 0 <= v <= 11.
Proof.
  intros H i o Hin. apply transform_data_returns in H. destruct H as [_ ->].
  apply in_output in Hin.
  destruct Hin as [c [j [r [v [Hr [_ [Hk [Hv ->]]]]]]]].
  exists v. split; [ reflexivity | ]. split; [ exact Hv | ].
  apply nth_error_In in Hr. rewrite (wide_kpi infer data r c Hr) in Hk.
  unfold months_or_none in Hk.
  destruct (get_fecha (later c) r) as [ | l | ]; try discriminate.
  destruct (get_fecha (earlier c) r) as [ | e | ]; try discriminate.
  injection Hk as <-. apply relativedelta_months_bound.
Qed.

End Range.

Lemma kpi_value_at_most_eleven_witness :
  transform_data infer_iso four_years
  = Ok [(0%nat, mkObservation (stage_meta "E3" 1) "KPI Aprobacion" (Some 1)
                              (Some 2021))]
  /\ forall i o,
       In (i, o)
          [(0%nat, mkObservation (stage_meta "E3" 1) "KPI Aprobacion" (Some 1)
                                 (Some 2021))] ->
       exists v, obs_KPI o = Some v /\ 0 <= v <= 11.
Proof.
  split; [ reflexivity | ].
  apply (kpi_value_at_most_eleven infer_iso four_years). reflexivity.
Defined.

(** ** Milestones on the same day *)

Definition same_day : DataFrame :=
  mkFrame header
    [mkRow (stage_meta "E4" 1)
           (mkFechas (Timestamp d_2020_04_10) (Timestamp d_2020_04_10) NaT NaT
                     NaT)
           no_kpis].

Section SameDay.

Variable infer : list cell -> string -> option date.

(** C9. When the two milestone dates of a KPI are present and equal on a row
    of the input, [transform_data] returns an observation for that row and
    that KPI whose value is 0. *)
Theorem zero_duration_emitted (data : DataFrame)
  (out : list (nat * Observation)) (r0 : Row) (c : kpi_column) (d : date) :
  transform_data infer data = Ok out ->
  In r0 (rows data) ->
  get_fecha (later c) (widen infer data r0) = Timestamp d ->
  get_fecha (earlier c) (widen infer data r0) = Timestamp d ->
  exists i,
    In (i, mkObservation (meta r0) (kpi_name c) (Some 0)
                         (first_year (wide infer data) c)) out.
Proof.
  intros H Hin Hl He. apply transform_data_returns in H. destruct H as [_ ->].
  destruct (input_row_position infer data r0 Hin) as [j Hj].
  exists (label (wide infer data) c j). apply in_output.
  exists c, j, (widen infer data r0), 0. repeat split; try assumption.
  - rewrite (wide_kpi infer data _ c (nth_error_In _ _ Hj)).
    rewrite Hl, He. simpl. rewrite relativedelta_same. reflexivity.
  - lia.
Qed.

End SameDay.

Lemma zero_duration_emitted_witness :
  transform_data infer_iso same_day
  = Ok [(0%nat, mkObservation (stage_meta "E4" 1) "KPI Aprobacion" (Some 0)
                              (Some 2020))]
  /\ exists i,
       In (i, mkObservation (stage_meta "E4" 1) "KPI Aprobacion" (Some 0)
                            (Some 2020))
          [(0%nat, mkObservation (stage_meta "E4" 1) "KPI Aprobacion" (Some 0)
                                 (Some 2020))].
Proof.
  split; [ reflexivity | ].
  apply (zero_duration_emitted infer_iso same_day _
           (mkRow (stage_meta "E4" 1)
                  (mkFechas (Timestamp d_2020_04_10) (Timestamp d_2020_04_10)
                            NaT NaT NaT)
                  no_kpis)
           cKPI_Aprobacion d_2020_04_10).
  - reflexivity.
  - left. reflexivity.
  - reflexivity.
  - reflexivity.
Defined.

(** ** Missing milestone dates *)

Section Absent.

Variable infer : list cell -> string -> option date.

(** C4. On every row of the wide table each of the four KPIs has a value
    exactly when both of its milestone dates are present, and is missing (not
    zero) otherwise; a KPI without a value gives no observation, so a row
    without an approval date gives no Approval observation; every other KPI
    of that row whose two dates are present has a value, and is returned when
    the value is zero or more. Every input row stands in the wide table. The
    row of [no_approval] has no approval date and still gives its
    Eligibility and First-Disbursement observations. *)
Theorem absent_date_suppression (data : DataFrame)
  (out : list (nat * Observation)) :
  transform_data infer data = Ok out ->
  (forall r0, In r0 (rows data) ->
     exists j, nth_error (wide infer data) j = Some (widen infer data r0))
  /\ (forall j r, nth_error (wide infer data) j = Some r ->
        (forall c, get_kpi c r = None
                   <-> get_fecha (later c) r = NaT
                       \/ get_fecha (earlier c) r = NaT)
        /\ (forall c, get_kpi c r = None ->
              forall o, ~ In (label (wide infer data) c j, o) out)
        /\ (FechaAprobacion (fechas r) = NaT ->
              forall o, ~ In (label (wide infer data) cKPI_Aprobacion j, o) out)
        /\ (forall c, get_fecha (later c) r <> NaT ->
              get_fecha (earlier c) r <> NaT ->
              exists v, get_kpi c r = Some v
                /\ (0 <= v ->
                    In (label (wide infer data) c j,
                        mkObservation (meta r) (kpi_name c) (Some v)
                                      (first_year (wide infer data) c)) out)))
  /\ transform_data infer no_approval
     = Ok [(2%nat, mkObservation (stage_meta "E2" 1) "KPI Elegibilidad"
                                 (Some 1) (Some 2021));
           (3%nat, mkObservation (stage_meta "E2" 1) "KPI Primer Desembolso"
                                 (Some 3) (Some 2021))].
Proof.
  intros H. apply transform_data_returns in H. destruct H as [_ ->].
  set (w := wide infer data).
  split; [ | split; [ | reflexivity ] ].
  - intros r0 Hin. apply input_row_position. exact Hin.
  - intros j r Hr.
    assert (Hin : In r w) by (apply nth_error_In with j; exact Hr).
    assert (Hnone : forall c, get_kpi c r = None
                      <-> get_fecha (later c) r = NaT
                          \/ get_fecha (earlier c) r = NaT).
    { intros c. rewrite (wide_kpi infer data r c Hin).
      apply months_or_none_None; intros s; apply (wide_no_text infer data);
        exact Hin. }
    assert (Hdrop : forall c, get_kpi c r = None ->
                      forall o, ~ In (label w c j, o)
                                     (map to_observation (filter keep (long w)))).
    { intros c Hk o Ho. apply in_output in Ho.
      destruct Ho as [c' [j' [r' [v [Hr' [Hi [Hk' _]]]]]]].
      assert (Hj : (j < List.length w)%nat)
        by (apply nth_error_Some; congruence).
      assert (Hj' : (j' < List.length w)%nat)
        by (apply nth_error_Some; congruence).
      apply label_inj in Hi; [ | assumption | assumption ].
      destruct Hi as [-> ->]. congruence. }
    split; [ exact Hnone | ]. split; [ exact Hdrop | ]. split.
    + intros Ha. apply Hdrop. apply Hnone. left. exact Ha.
    + intros c Hl He.
      destruct (get_kpi c r) as [v | ] eqn:Hk.
      * exists v. split; [ reflexivity | ]. intros Hv. apply in_output.
        exists c, j, r, v. auto.
      * exfalso. apply Hnone in Hk. tauto.
Qed.

End Absent.

Lemma absent_date_suppression_witness :
  transform_data infer_iso no_approval
  = Ok [(2%nat, mkObservation (stage_meta "E2" 1) "KPI Elegibilidad" (Some 1)
                              (Some 2021));
        (3%nat, mkObservation (stage_meta "E2" 1) "KPI Primer Desembolso"
                              (Some 3) (Some 2021))]
  /\ forall r0, In r0 (rows no_approval) ->
       exists j, nth_error (wide infer_iso no_approval) j
                 = Some (widen infer_iso no_approval r0).
Proof.
  split; [ reflexivity | ].
  apply (absent_date_suppression infer_iso no_approval
           [(2%nat, mkObservation (stage_meta "E2" 1) "KPI Elegibilidad"
                                  (Some 1) (Some 2021));
            (3%nat, mkObservation (stage_meta "E2" 1) "KPI Primer Desembolso"
                                  (Some 3) (Some 2021))]).
  reflexivity.
Defined.

(** ** Duplicate rows *)

Definition stage_a : Row :=
  mkRow (stage_meta "A" 1)
        (mkFechas (Timestamp d_2020_01_10) (Timestamp d_2020_04_10) NaT NaT NaT)
        no_kpis.

Definition stage_b : Row :=
  mkRow (stage_meta "B" 2)
        (mkFechas (Timestamp d_2021_01_15) (Timestamp d_2021_03_15) NaT NaT NaT)
        no_kpis.

Lemma dedup_keeps_distinct (rs : list Row) (r1 r2 : Row) :
  In r1 rs -> In r2 rs -> r1 <> r2 ->
  exists j1 j2,
    j1 <> j2
    /\ nth_error (dedup_from [] rs) j1 = Some r1
    /\ nth_error (dedup_from [] rs) j2 = Some r2.
Proof.
  intros H1 H2 Hne.
  assert (I1 : In r1 (dedup_from [] rs)) by (apply in_dedup_from; simpl; tauto).
  assert (I2 : In r2 (dedup_from [] rs)) by (apply in_dedup_from; simpl; tauto).
  apply In_nth_error in I1. apply In_nth_error in I2.
  destruct I1 as [j1 E1], I2 as [j2 E2]. exists j1, j2.
  split; [ | split; assumption ]. intros ->. congruence.
Qed.

Section Duplicates.

Variable strptime : string -> option date.
Variable infer : list cell -> string -> option date.

(** X18. A table in which a row occurs twice gives the same result as the
    table without the second copy (the same table, and so the same set of
    observations). Two rows that differ in a field both stay, at two places
    of the deduplicated table, and a row at place [j] of that table
    contributes, for every KPI of its with a value of zero or more, the
    observation labelled by [j] and that KPI. The pipeline of [main] returns
    the same observations on the two tables as well. *)
Theorem duplicate_rows_collapse :
  (forall cols t1 r t2 t3,
     transform_data infer (mkFrame cols (t1 ++ r :: t2 ++ r :: t3))
     = transform_data infer (mkFrame cols (t1 ++ r :: t2 ++ t3)))
  /\ (forall data r1 r2,
        In r1 (rows data) -> In r2 (rows data) -> r1 <> r2 ->
        exists j1 j2,
          j1 <> j2
          /\ nth_error (rows (drop_duplicates data)) j1 = Some r1
          /\ nth_error (rows (drop_duplicates data)) j2 = Some r2)
  /\ (forall data out j r0 c v,
        transform_data infer data = Ok out ->
        nth_error (rows (drop_duplicates data)) j = Some r0 ->
        get_kpi c (widen infer data r0) = Some v -> 0 <= v ->
        In (label (wide infer data) c j,
            mkObservation (meta r0) (kpi_name c) (Some v)
                          (first_year (wide infer data) c)) out)
  /\ (forall cols t1 r t2 t3 data' out,
        pipeline strptime infer (mkFrame cols (t1 ++ r :: t2 ++ r :: t3))
        = Ok (data', out) ->
        exists data'',
          pipeline strptime infer (mkFrame cols (t1 ++ r :: t2 ++ t3))
          = Ok (data'', out)).
Proof.
  assert (Hcopy : forall cols t1 r t2 t3,
            transform_data infer (mkFrame cols (t1 ++ r :: t2 ++ r :: t3))
            = transform_data infer (mkFrame cols (t1 ++ r :: t2 ++ t3))).
  { intros cols t1 r t2 t3. unfold transform_data. cbv zeta.
    assert (E : drop_duplicates (mkFrame cols (t1 ++ r :: t2 ++ r :: t3))
                = drop_duplicates (mkFrame cols (t1 ++ r :: t2 ++ t3))).
    { unfold drop_duplicates. simpl columns. simpl rows. f_equal.
      apply (dedup_from_copy [] t1 t2 t3 r). }
    rewrite E. reflexivity. }
  split; [ exact Hcopy | ]. split; [ | split ].
  - intros data r1 r2 H1 H2 Hne. rewrite rows_drop_duplicates.
    apply dedup_keeps_distinct; assumption.
  - intros data out j r0 c v H Hj Hk Hv.
    apply transform_data_returns in H. destruct H as [_ ->].
    apply in_output. exists c, j, (widen infer data r0), v.
    repeat split; try assumption.
    unfold wide. rewrite nth_error_map, Hj. reflexivity.
  - intros cols t1 r t2 t3 data' out H.
    apply pipeline_returns in H. destruct H as [Hs [-> Ht]].
    assert (Hs' : schema_ok (mkFrame cols (t1 ++ r :: t2 ++ t3)) = true)
      by exact Hs.
    rewrite (pipeline_ok strptime infer _ Hs'). eexists. f_equal. f_equal.
    assert (Ht' : transform_data infer
              (after_calculate strptime (mkFrame cols (t1 ++ r :: t2 ++ t3)))
            = Ok out).
    { unfold after_calculate in *. simpl columns in *. simpl rows in *.
      rewrite !map_app in *. simpl map in *. rewrite !map_app in *.
      simpl map in *. rewrite <- Hcopy. exact Ht. }
    rewrite (transform_data_ok infer) in Ht'
      by (rewrite schema_ok_after_calculate; exact Hs').
    injection Ht' as Ht'. exact Ht'.
Qed.

End Duplicates.

Lemma duplicate_rows_collapse_witness :
  transform_data infer_iso (mkFrame header [stage_a; stage_b; stage_a])
  = transform_data infer_iso (mkFrame header [stage_a; stage_b])
  /\ transform_data infer_iso (mkFrame header [stage_a; stage_b])
     = Ok [(0%nat, mkObservation (stage_meta "A" 1) "KPI Aprobacion" (Some 3)
                                 (Some 2020));
           (1%nat, mkObservation (stage_meta "B" 2) "KPI Aprobacion" (Some 2)
                                 (Some 2020))].
Proof.
  split; [ | reflexivity ].
  apply (proj1 (duplicate_rows_collapse strptime_dmY infer_iso)
           header [] stage_a [stage_b] []).
Defined.

(** ** Missing columns and malformed dates *)

(** A table whose header lacks the approval column. *)
Definition without_approval_column : DataFrame :=
  mkFrame (filter (fun name => negb (String.eqb name "FechaAprobacion")) header)
          [stage_a].

(** A table whose approval cell is not a date at all. *)
Definition malformed_date : DataFrame :=
  mkFrame header
    [mkRow (stage_meta "M" 1)
           (mkFechas (Text "10/01/2020") (Text "not a date") (Text "") NaT
                     (Text "31/02/2020"))
           no_kpis].

Section Errors.

Variable strptime : string -> option date.
Variable infer : list cell -> string -> option date.

(** C6. The pipeline of [main] either returns, which it does exactly when
    the header holds all twelve required columns, whatever the cells of the
    table are, or raises a [KeyError] to its caller that names one or more
    required columns the header lacks; it raises nothing else. *)
Theorem missing_column_is_the_only_failure (data : DataFrame) :
  (schema_ok data = true
   /\ exists data' out, pipeline strptime infer data = Ok (data', out))
  \/ (schema_ok data = false
      /\ exists name missing,
           pipeline strptime infer data = Raise (KeyError (name :: missing))
           /\ forall x, In x (name :: missing) ->
                In x required_columns /\ has_column data x = false).
Proof.
  destruct (schema_ok data) eqn:E.
  - left. split; [ reflexivity | ].
    rewrite (pipeline_ok strptime infer data E). eexists. eexists. reflexivity.
  - right. split; [ reflexivity | ]. apply pipeline_raises. exact E.
Qed.

End Errors.

(** A table with malformed date cells is processed. *)
Example malformed_date_is_processed :
  pipeline strptime_dmY infer_iso malformed_date
  = Ok (after_calculate strptime_dmY malformed_date, []).
Proof. vm_compute. reflexivity. Qed.

(** A table without the approval column is refused. *)
Example missing_column_is_refused :
  pipeline strptime_dmY infer_iso without_approval_column
  = Raise (KeyError ["FechaAprobacion"%string]).
Proof. vm_compute. reflexivity. Qed.

(** ** The two date conversions, one after the other *)

Lemma convert_row_id (conv : date_column -> cell -> cell) (r : Row) :
  (forall c, conv c (get_fecha c r) = get_fecha c r) -> convert_row conv r = r.
Proof.
  intros H. destruct r as [m [a b c d e] k]. unfold convert_row. simpl.
  pose proof (H cFecha_CartaConsulta) as Ha. pose proof (H cFechaAprobacion) as Hb.
  pose proof (H cFechaVigencia) as Hc. pose proof (H cFechaElegibilidad) as Hd.
  pose proof (H cFechadePrimerDesembolso) as He. simpl in *.
  rewrite Ha, Hb, Hc, Hd, He. reflexivity.
Qed.

Lemma get_fecha_approx_row (strptime : string -> option date) (r : Row)
  (c : date_column) :
  get_fecha c (approx_row strptime r) = to_datetime strptime (get_fecha c r).
Proof.
  unfold approx_row. rewrite get_fecha_assign_kpis, get_fecha_convert_row.
  reflexivity.
Qed.

Lemma approx_row_idem (strptime : string -> option date) (r : Row) :
  approx_row strptime (approx_row strptime r) = approx_row strptime r.
Proof.
  unfold approx_row at 1.
  rewrite convert_row_id.
  - unfold approx_row, assign_kpis. reflexivity.
  - intros c. rewrite get_fecha_approx_row. apply to_datetime_typed.
Qed.

(** The reading the claim gives of the two calls: the fixed layout first,
    and on failure the parse without a layout on the same raw text. *)
Definition fallback_parse (strptime : string -> option date)
  (infer : list cell -> string -> option date) (column : list cell) (c : cell)
  : cell :=
  match c with
  | Text s =>
      match strptime s with
      | Some d => Timestamp d
      | None => match infer column s with Some d => Timestamp d | None => NaT end
      end
  | Timestamp d => Timestamp d
  | NaT => NaT
  end.

(** A consultation letter in the fixed layout, an approval in ISO layout. *)
Definition iso_text : DataFrame :=
  mkFrame header
    [mkRow (stage_meta "I" 1)
           (mkFechas (Text "10/01/2020") (Text "2020-04-10") NaT NaT NaT)
           no_kpis].

Section Normalizer.

Variable strptime : string -> option date.
Variable infer : list cell -> string -> option date.

(** C7, amended. On a table with the required columns the pipeline never
    raises, whatever the date cells hold, and [calculate_kpis] keeps every
    row, in order; each date cell becomes what the fixed layout reads in it,
    absent when the layout does not fit; the parse without a layout in
    [transform_data] then finds no raw text and leaves every row of that
    table as it is. *)
Theorem date_normalizer_fixed_layout_only (data : DataFrame) :
  schema_ok data = true ->
  (exists out,
     pipeline strptime infer data = Ok (after_calculate strptime data, out))
  /\ map meta (rows (after_calculate strptime data)) = map meta (rows data)
  /\ (forall c,
        map (get_fecha c) (rows (after_calculate strptime data))
        = map (fun r => to_datetime strptime (get_fecha c r)) (rows data))
  /\ (forall r,
        In r (rows (after_calculate strptime data)) ->
        normalise infer
          (rows (drop_duplicates (after_calculate strptime data))) r = r).
Proof.
  intros H. split; [ | split; [ | split ] ].
  - rewrite (pipeline_ok strptime infer data H). eexists. reflexivity.
  - unfold after_calculate. simpl rows. rewrite map_map. reflexivity.
  - intros c. unfold after_calculate. simpl rows. rewrite map_map.
    apply map_ext. intros r. apply get_fecha_approx_row.
  - intros r Hr. unfold after_calculate in Hr. simpl rows in Hr.
    apply in_map_iff in Hr. destruct Hr as [r0 [<- _]].
    unfold normalise. apply convert_row_id. intros c.
    rewrite get_fecha_approx_row. apply to_datetime_typed.
Qed.

End Normalizer.

Lemma date_normalizer_fixed_layout_only_witness :
  schema_ok iso_text = true
  /\ map (get_fecha cFechaAprobacion)
         (rows (after_calculate strptime_dmY iso_text))
     = map (fun r => to_datetime strptime_dmY (get_fecha cFechaAprobacion r))
           (rows iso_text).
Proof.
  split; [ vm_compute; reflexivity | ].
  apply (date_normalizer_fixed_layout_only strptime_dmY infer_iso iso_text).
  vm_compute. reflexivity.
Defined.

(** C7 as stated fails on [iso_text]: the approval text does not fit the
    fixed layout and the parse without a layout reads it, so the fallback
    would give a date; the pipeline leaves the cell absent and returns no
    Approval observation for the row. *)
Lemma lenient_parse_is_no_fallback :
  strptime_dmY "2020-04-10" = None
  /\ parse_iso "2020-04-10" = Some d_2020_04_10
  /\ map (fun r => fallback_parse strptime_dmY infer_iso
                     (map (get_fecha cFechaAprobacion) (rows iso_text))
                     (get_fecha cFechaAprobacion r))
         (rows iso_text)
     = [Timestamp d_2020_04_10]
  /\ map (get_fecha cFechaAprobacion)
         (wide infer_iso (after_calculate strptime_dmY iso_text))
     = [NaT]
  /\ map (get_fecha cFechaAprobacion)
         (wide infer_iso (after_calculate strptime_dmY iso_text))
     <> map (fun r => fallback_parse strptime_dmY infer_iso
                        (map (get_fecha cFechaAprobacion) (rows iso_text))
                        (get_fecha cFechaAprobacion r))
            (rows iso_text)
  /\ pipeline strptime_dmY infer_iso iso_text
     = Ok (after_calculate strptime_dmY iso_text, []).
Proof.
  split; [ vm_compute; reflexivity | ]. split; [ vm_compute; reflexivity | ].
  split; [ vm_compute; reflexivity | ]. split; [ vm_compute; reflexivity | ].
  split; [ intros H; vm_compute in H; discriminate H | ].
  vm_compute. reflexivity.
Qed.

(** ** Running the pipeline again *)

(** Two rows as the CSV gives them, dates as text. *)
Definition two_stages_text : DataFrame :=
  mkFrame header
    [mkRow (stage_meta "A" 1)
           (mkFechas (Text "10/01/2020") (Text "10/04/2020") NaT NaT NaT)
           no_kpis;
     mkRow (stage_meta "B" 2)
           (mkFechas (Text "15/01/2021") (Text "15/03/2021") NaT NaT NaT)
           no_kpis].

Section Idempotence.

Variable strptime : string -> option date.
Variable infer : list cell -> string -> option date.

Lemma after_calculate_idem (data : DataFrame) :
  after_calculate strptime (after_calculate strptime data)
  = after_calculate strptime data.
Proof.
  unfold after_calculate. simpl columns. simpl rows.
  rewrite kpi_columns_added_idem, map_map. f_equal.
  apply map_ext. intros r. apply approx_row_idem.
Qed.

(** C8. When a run of the pipeline returns, a run on a copy of the input
    table (same header, same rows) returns the same table of observations,
    and so does a second run on the very table the first run assigned its
    columns to. *)
Theorem pipeline_idempotent (data data' : DataFrame)
  (out : list (nat * Observation)) :
  pipeline strptime infer data = Ok (data', out) ->
  (forall copy,
     columns copy = columns data -> rows copy = rows data ->
     pipeline strptime infer copy = Ok (data', out))
  /\ pipeline strptime infer data' = Ok (data', out).
Proof.
  intros H. split.
  - intros [cols rs] Hc Hr. simpl in Hc, Hr. subst cols rs.
    destruct data as [cols rs]. exact H.
  - destruct (schema_ok data) eqn:E.
    + rewrite (pipeline_ok strptime infer data E) in H.
      injection H as <- <-.
      rewrite (pipeline_ok strptime infer (after_calculate strptime data))
        by (rewrite schema_ok_after_calculate; exact E).
      rewrite after_calculate_idem. reflexivity.
    + destruct (pipeline_raises strptime infer data E)
        as [name [missing [Hr _]]].
      congruence.
Qed.

End Idempotence.

Definition two_stages_out : list (nat * Observation) :=
  [(0%nat, mkObservation (stage_meta "A" 1) "KPI Aprobacion" (Some 3)
                         (Some 2020));
   (1%nat, mkObservation (stage_meta "B" 2) "KPI Aprobacion" (Some 2)
                         (Some 2020))].

Lemma pipeline_idempotent_witness :
  pipeline strptime_dmY infer_iso two_stages_text
  = Ok (after_calculate strptime_dmY two_stages_text, two_stages_out)
  /\ pipeline strptime_dmY infer_iso
       (after_calculate strptime_dmY two_stages_text)
     = Ok (after_calculate strptime_dmY two_stages_text, two_stages_out).
Proof.
  split; [ vm_compute; reflexivity | ].
  apply (pipeline_idempotent strptime_dmY infer_iso two_stages_text).
  vm_compute. reflexivity.
Defined.

(** ** The year of an observation *)

Section Year.

Variable infer : list cell -> string -> option date.

(** Every observation of a KPI carries the year line 72 reads in the first
    row of the wide table. *)
Lemma year_is_first_year (data : DataFrame) (out : list (nat * Observation))
  (i : nat) (o : Observation) :
  transform_data infer data = Ok out ->
  In (i, o) out ->
  exists c,
    obs_Estaciones o = kpi_name c
    /\ obs_Año o = first_year (wide infer data) c.
Proof.
  intros H Hin. apply transform_data_returns in H. destruct H as [_ ->].
  apply in_output in Hin. destruct Hin as [c [j [r [v [_ [_ [_ [_ ->]]]]]]]].
  exists c. split; reflexivity.
Qed.

End Year.

(** C1 on [two_stages_text]: the approval of the second row falls in 2021,
    and its Approval observation carries 2020, the year of the approval of
    the first row. *)
Theorem year_read_from_first_row :
  map (fun r => dt_year (FechaAprobacion (fechas r)))
      (wide infer_iso (after_calculate strptime_dmY two_stages_text))
  = [Some 2020; Some 2021]
  /\ pipeline strptime_dmY infer_iso two_stages_text
     = Ok (after_calculate strptime_dmY two_stages_text,
           [(0%nat, mkObservation (stage_meta "A" 1) "KPI Aprobacion"
                                  (Some 3) (Some 2020));
            (1%nat, mkObservation (stage_meta "B" 2) "KPI Aprobacion"
                                  (Some 2) (Some 2020))]).
Proof. split; vm_compute; reflexivity. Qed.

(** ** Months between two dates *)

(** The number of whole calendar months the claim speaks of: the years of
    the calendar delta count twelve months each. *)
Definition whole_months (later_date earlier_date : date) : Z :=
  let rd := relativedelta_of later_date earlier_date in
  12 * years rd + months rd.

(** For a later date that does not precede the earlier one, [whole_months]
    is the difference of the two months, less one when the day of the later
    date has not reached the day of the earlier one (clipped to the month). *)
Lemma whole_months_spec (l e : date) :
  date_ltb l e = false ->
  whole_months l e
  = (year l - year e) * 12 + (month l - month e)
    - (if day l <? Z.min (monthrange (year l) (month l)) (day e) then 1 else 0).
Proof.
  intros Hle. unfold whole_months.
  pose proof (relativedelta_fuel_enough l e 1 (le_n 1)) as H.
  unfold relativedelta_fuel in H. rewrite Hle in H.
  set (m := (year l - year e) * 12 + (month l - month e)) in *.
  pose proof (date_bounds l) as [Hm1 Hd1].
  cbn [adjust] in H.
  destruct (radd_spec m e) as [Y [M [E [HY HM]]]]. rewrite E in H.
  assert (Y = year l /\ M = month l) as [-> ->] by (unfold m in HY; lia).
  assert (Hc : ymd_ltb (ymd l)
                 (year l, month l, Z.min (monthrange (year l) (month l)) (day e))
               = (day l <? Z.min (monthrange (year l) (month l)) (day e))).
  { unfold ymd, ymd_ltb. rewrite !Z.ltb_irrefl, !Z.eqb_refl. reflexivity. }
  rewrite Hc in H.
  destruct (day l <? Z.min (monthrange (year l) (month l)) (day e)).
  - destruct (radd_spec (m + -1) e) as [Y' [M' [E' [HY' HM']]]].
    rewrite E' in H.
    destruct (ymd_ltb (ymd l) _) eqn:C'.
    + exfalso. apply ymd_ltb_spec in C'. unfold ymd in C'. unfold m in HY'. lia.
    + simpl in H. injection H as <-.
      pose proof (set_months_total (m + -1)). lia.
  - simpl in H. injection H as <-. pose proof (set_months_total m). lia.
Qed.

(** Fifteen months between the consultation letter and the approval. *)
Definition fifteen_months : DataFrame :=
  mkFrame header
    [mkRow (stage_meta "F" 1)
           (mkFechas (Timestamp d_2020_01_10) (Timestamp d_2021_04_10) NaT NaT
                     NaT)
           no_kpis].

(** C2 on [fifteen_months]: 2020-01-10 and 2021-04-10 are fifteen whole
    months apart, which is also what [get_approx_months_diff] counts, and
    the KPI is 3, the months left over after the year; the three months from
    2020-01-10 to 2020-04-10 give 3 as well. *)
Theorem months_left_over_after_years :
  whole_months d_2021_04_10 d_2020_01_10 = 15
  /\ get_approx_months_diff (Timestamp d_2021_04_10) (Timestamp d_2020_01_10)
     = Some 15
  /\ months_or_none (Timestamp d_2021_04_10) (Timestamp d_2020_01_10) = Some 3
  /\ months_or_none (Timestamp d_2020_04_10) (Timestamp d_2020_01_10) = Some 3
  /\ transform_data infer_iso fifteen_months
     = Ok [(0%nat, mkObservation (stage_meta "F" 1) "KPI Aprobacion" (Some 3)
                                 (Some 2021))].
Proof. repeat split; vm_compute; reflexivity. Qed.

(** * Further properties of the page's functions *)

(** ** Which column a missing header makes the functions name *)

(** The first date column, in the order of [date_columns], that the header
    lacks. *)
Definition first_missing_date (data : DataFrame) : option date_column :=
  find (fun c => negb (has_column data (date_name c))) date_columns.

(** The [id_vars] the header lacks, in the order of [id_vars]. *)
Definition missing_id_vars (data : DataFrame) : list string :=
  filter (fun name => negb (has_column data name)) id_vars.

Lemma first_missing_date_None (data : DataFrame) :
  first_missing_date data = None ->
  forall c, has_column data (date_name c) = true.
Proof.
  intros H c. unfold first_missing_date in H.
  pose proof (find_none _ _ H c) as Hc. simpl in Hc.
  apply negb_false_iff. apply Hc. destruct c; simpl; tauto.
Qed.

Lemma first_missing_date_Some (data : DataFrame) (c : date_column) :
  first_missing_date data = Some c -> has_column data (date_name c) = false.
Proof.
  intros H. apply find_some in H. destruct H as [_ H].
  apply negb_true_iff. exact H.
Qed.

Lemma convert_loop_first_missing (conv : list cell -> cell -> cell)
  (data : DataFrame) :
  for_each date_columns
    (fun data col => s <- getitem data col ;; Ok (setitem data col (map (conv s) s)))
    data
  = match first_missing_date data with
    | Some c => Raise (KeyError [date_name c])
    | None =>
        Ok (mkFrame (columns data)
              (map (convert_row (fun c => conv (map (get_fecha c) (rows data))))
                   (rows data)))
    end.
Proof.
  destruct (first_missing_date data) as [c | ] eqn:E.
  - destruct data as [cols rs]. unfold first_missing_date, date_columns in E.
    unfold date_columns. cbn [for_each]. cbn [find] in E.
    destruct (has_column (mkFrame cols rs) (date_name cFecha_CartaConsulta))
      eqn:E1; cbn [negb] in E.
    2:{ injection E as <-. unfold getitem. rewrite E1. reflexivity. }
    rewrite convert_step by exact E1. cbn [bind].
    destruct (has_column (mkFrame cols rs) (date_name cFechaAprobacion))
      eqn:E2; cbn [negb] in E.
    2:{ injection E as <-. unfold getitem, has_column in *.
        cbn [columns] in *. rewrite E2. reflexivity. }
    rewrite convert_step by exact E2. cbn [bind].
    destruct (has_column (mkFrame cols rs) (date_name cFechaVigencia))
      eqn:E3; cbn [negb] in E.
    2:{ injection E as <-. unfold getitem, has_column in *.
        cbn [columns] in *. rewrite E3. reflexivity. }
    rewrite convert_step by exact E3. cbn [bind].
    destruct (has_column (mkFrame cols rs) (date_name cFechaElegibilidad))
      eqn:E4; cbn [negb] in E.
    2:{ injection E as <-. unfold getitem, has_column in *.
        cbn [columns] in *. rewrite E4. reflexivity. }
    rewrite convert_step by exact E4. cbn [bind].
    destruct (has_column (mkFrame cols rs) (date_name cFechadePrimerDesembolso))
      eqn:E5; cbn [negb] in E.
    2:{ injection E as <-. unfold getitem, has_column in *.
        cbn [columns] in *. rewrite E5. reflexivity. }
    discriminate E.
  - apply convert_loop. apply first_missing_date_None. exact E.
Qed.

Section Headers.

Variable strptime : string -> option date.
Variable infer : list cell -> string -> option date.

(** X1. [calculate_kpis] needs the five date columns and nothing else: when
    the header lacks one it raises a [KeyError] for the first that is
    missing, in the order of [date_columns], and otherwise it returns, the
    identifier columns being there or not. *)
Theorem calculate_kpis_needs_date_columns (data : DataFrame) :
  calculate_kpis strptime data
  = match first_missing_date data with
    | Some c => Raise (KeyError [date_name c])
    | None => Ok (after_calculate strptime data)
    end.
Proof.
  destruct (first_missing_date data) as [c | ] eqn:E.
  - unfold calculate_kpis, to_datetime_format.
    rewrite (convert_loop_first_missing (fun _ => to_datetime strptime) data).
    rewrite E. reflexivity.
  - apply calculate_kpis_ok. apply first_missing_date_None. exact E.
Qed.

(** X3. [transform_data] checks the date columns before the identifier
    columns: a missing date column raises a [KeyError] for the first one
    missing, whatever else is missing; with the date columns there, a missing
    identifier column makes [pd.melt] raise one [KeyError] that lists all the
    missing identifier columns in the order of [id_vars]; with all twelve
    there it returns. *)
Theorem transform_data_error_order (data : DataFrame) :
  transform_data infer data
  = match first_missing_date data with
    | Some c => Raise (KeyError [date_name c])
    | None =>
        match missing_id_vars data with
        | [] => Ok (map to_observation (filter keep (long (wide infer data))))
        | missing => Raise (KeyError missing)
        end
    end.
Proof.
  destruct (first_missing_date data) as [c | ] eqn:E.
  - unfold transform_data, to_datetime_infer. cbv zeta.
    rewrite (convert_loop_first_missing (fun s => to_datetime (infer s))
               (drop_duplicates data)).
    change (first_missing_date (drop_duplicates data))
      with (first_missing_date data).
    rewrite E. reflexivity.
  - pose proof (first_missing_date_None data E) as Hall.
    destruct (missing_id_vars data) as [ | name missing] eqn:Em.
    + apply transform_data_ok. unfold schema_ok, required_columns.
      apply forallb_forall. intros x Hx.
      destruct (has_column data x) eqn:Ex; [ reflexivity | ].
      assert (Hin : In x (missing_id_vars data))
        by (apply filter_In; rewrite Ex; auto).
      rewrite Em in Hin. contradiction.
    + unfold transform_data, to_datetime_infer. cbv zeta.
      assert (Hc : columns (drop_duplicates data) = columns data) by reflexivity.
      assert (Hd : forall c,
                 has_column (drop_duplicates data) (date_name c) = true)
        by exact Hall.
      revert Hc Hd. generalize (drop_duplicates data) as dd. intros dd Hc Hd.
      rewrite (convert_loop (fun s => to_datetime (infer s)) _ Hd). cbn [bind].
      pose proof (assign_four_kpis months_or_none
        (mkFrame (columns dd)
           (map (convert_row
                   (fun c => to_datetime (infer (map (get_fecha c) (rows dd)))))
                (rows dd)))) as Ek.
      cbv zeta in Ek |- *. rewrite Ek. clear Ek. cbn [columns rows].
      rewrite Hc. unfold melt. rewrite filter_app.
      assert (Hk : filter
                 (fun name => negb (has_column
                    (mkFrame (kpi_columns_added (columns data))
                       (map (assign_kpis months_or_none)
                          (map (convert_row
                             (fun c => to_datetime
                                (infer (map (get_fecha c) (rows dd)))))
                             (rows dd)))) name))
                 (map kpi_name value_vars) = []).
      { apply filter_nil. intros x Hx. rewrite has_column_kpi_added.
        assert (Ht : existsb (String.eqb x) (map kpi_name value_vars) = true).
        { apply existsb_exists. exists x. split; [ exact Hx | apply String.eqb_refl ]. }
        rewrite Ht, orb_true_r. reflexivity. }
      rewrite Hk, app_nil_r.
      assert (Hi : filter
                 (fun name => negb (has_column
                    (mkFrame (kpi_columns_added (columns data))
                       (map (assign_kpis months_or_none)
                          (map (convert_row
                             (fun c => to_datetime
                                (infer (map (get_fecha c) (rows dd)))))
                             (rows dd)))) name))
                 id_vars = missing_id_vars data).
      { unfold missing_id_vars. apply filter_ext_in. intros x Hx.
        destruct data as [cols rs]. cbn [columns].
        rewrite (has_column_kpi_added_required cols rs _ x Hx). reflexivity. }
      rewrite Hi, Em. reflexivity.
Qed.

End Headers.

(** ** What [calculate_kpis] leaves in the table *)

Lemma get_kpi_approx_row (strptime : string -> option date) (r : Row)
  (c : kpi_column) :
  get_kpi c (approx_row strptime r)
  = get_approx_months_diff (get_fecha (later c) (approx_row strptime r))
                           (get_fecha (earlier c) (approx_row strptime r)).
Proof.
  unfold approx_row. rewrite get_kpi_assign_kpis, !get_fecha_assign_kpis.
  reflexivity.
Qed.

Section Calculate.

Variable strptime : string -> option date.

Lemma calculate_kpis_returns (data data' : DataFrame) :
  calculate_kpis strptime data = Ok data' ->
  data' = after_calculate strptime data.
Proof.
  intros H. destruct (first_missing_date data) as [c | ] eqn:E.
  - unfold calculate_kpis, to_datetime_format in H.
    rewrite (convert_loop_first_missing (fun _ => to_datetime strptime) data)
      in H.
    rewrite E in H. discriminate H.
  - rewrite (calculate_kpis_ok strptime data (first_missing_date_None data E))
      in H.
    injection H as <-. reflexivity.
Qed.

(** X2. When [calculate_kpis] returns, the table has the rows it had, in the
    same order and with the identifier cells untouched; no date cell is raw
    text any more; each KPI column holds what [get_approx_months_diff] gives
    for the row's own two dates; and the header is the old one with the four
    KPI columns in it. *)
Theorem calculate_kpis_keeps_rows (data data' : DataFrame) :
  calculate_kpis strptime data = Ok data' ->
  List.length (rows data') = List.length (rows data)
  /\ map meta (rows data') = map meta (rows data)
  /\ (forall r c s, In r (rows data') -> get_fecha c r <> Text s)
  /\ (forall r c, In r (rows data') ->
        get_kpi c r
        = get_approx_months_diff (get_fecha (later c) r)
                                 (get_fecha (earlier c) r))
  /\ (forall x, has_column data' x
                = has_column data x
                  || existsb (String.eqb x) (map kpi_name value_vars)).
Proof.
  intros H. apply calculate_kpis_returns in H. subst data'.
  unfold after_calculate. cbn [rows].
  split; [ apply length_map | ].
  split; [ rewrite map_map; reflexivity | ].
  split; [ | split ].
  - intros r c s Hr. apply in_map_iff in Hr. destruct Hr as [r0 [<- _]].
    rewrite get_fecha_approx_row. apply to_datetime_not_text.
  - intros r c Hr. apply in_map_iff in Hr. destruct Hr as [r0 [<- _]].
    apply get_kpi_approx_row.
  - intros x. apply has_column_kpi_added.
Qed.

End Calculate.

Lemma calculate_kpis_keeps_rows_witness :
  calculate_kpis strptime_dmY malformed_date
  = Ok (after_calculate strptime_dmY malformed_date)
  /\ map meta (rows (after_calculate strptime_dmY malformed_date))
     = map meta (rows malformed_date).
Proof.
  split; [ vm_compute; reflexivity | ].
  apply (calculate_kpis_keeps_rows strptime_dmY malformed_date).
  vm_compute. reflexivity.
Defined.

(** ** The approximate month count of [calculate_kpis] *)

Lemma round_div_opp (n : Z) : round_div (- n) 30 = - round_div n 30.
Proof.
  unfold round_div.
  assert (H : (n mod 30 = 0 /\ (- n) / 30 = - (n / 30) /\ (- n) mod 30 = 0)
              \/ (n mod 30 <> 0 /\ (- n) / 30 = - (n / 30) - 1
                  /\ (- n) mod 30 = 30 - n mod 30))
    by (Z.div_mod_to_equations; lia).
  pose proof (Z.mod_pos_bound n 30 eq_refl) as Hb.
  destruct H as [[H0 [Hq Hr]] | [H0 [Hq Hr]]]; rewrite Hq, Hr.
  - rewrite H0. reflexivity.
  - destruct (Z.ltb_spec (2 * (n mod 30)) 30) as [L1 | L1];
      destruct (Z.ltb_spec 30 (2 * (n mod 30))) as [L2 | L2];
      destruct (Z.ltb_spec (2 * (30 - n mod 30)) 30) as [L3 | L3];
      destruct (Z.ltb_spec 30 (2 * (30 - n mod 30))) as [L4 | L4];
      try lia.
    replace (- (n / 30) - 1) with (- Z.succ (n / 30)) by lia.
    rewrite Z.even_opp, Z.even_succ, <- Z.negb_even.
    destruct (Z.even (n / 30)); simpl; lia.
Qed.

Lemma round_div_near (n : Z) : Z.abs (30 * round_div n 30 - n) <= 15.
Proof.
  unfold round_div.
  destruct (Z.ltb_spec (2 * (n mod 30)) 30);
    [ | destruct (Z.ltb_spec 30 (2 * (n mod 30)));
        [ | destruct (Z.even (n / 30)) ] ];
    Z.div_mod_to_equations; lia.
Qed.

(** X4. [get_approx_months_diff] gives a value only when both dates are
    there; the value times thirty is within fifteen days of the day count;
    and with the two dates swapped the value is the opposite one (Python's
    rounding of a tie to the even integer is symmetric). *)
Theorem approx_months_antisymmetric (later_date earlier_date : cell) (v : Z) :
  get_approx_months_diff later_date earlier_date = Some v ->
  get_approx_months_diff earlier_date later_date = Some (- v)
  /\ exists l e,
       later_date = Timestamp l /\ earlier_date = Timestamp e
       /\ Z.abs (30 * v - (toordinal l - toordinal e)) <= 15.
Proof.
  unfold get_approx_months_diff.
  destruct later_date as [ | l | ]; try discriminate.
  destruct earlier_date as [ | e | ]; try discriminate.
  intros H. injection H as <-. split.
  - replace (toordinal e - toordinal l) with (- (toordinal l - toordinal e))
      by lia.
    rewrite round_div_opp. reflexivity.
  - exists l, e. split; [ reflexivity | ]. split; [ reflexivity | ].
    apply round_div_near.
Qed.

Lemma approx_months_antisymmetric_witness :
  get_approx_months_diff (Timestamp d_2021_04_10) (Timestamp d_2020_01_10)
  = Some 15
  /\ get_approx_months_diff (Timestamp d_2020_01_10) (Timestamp d_2021_04_10)
     = Some (- 15).
Proof.
  split; [ vm_compute; reflexivity | ].
  apply (approx_months_antisymmetric (Timestamp d_2021_04_10)
           (Timestamp d_2020_01_10) 15).
  vm_compute. reflexivity.
Defined.

(** ** The calendar delta of two ordered dates *)

Lemma date_ltb_false (l e : date) :
  date_ltb l e = false ->
  year e < year l
  \/ (year e = year l
      /\ (month e < month l \/ (month e = month l /\ day e <= day l))).
Proof.
  intros H. unfold date_ltb in H.
  destruct (Z_lt_le_dec (year e) (year l)) as [ | Hy]; [ left; assumption | ].
  right.
  assert (Hn : ~ (let '(ya, ma, da) := ymd l in
                  let '(yb, mb, db) := ymd e in
                  ya < yb \/ (ya = yb /\ (ma < mb \/ (ma = mb /\ da < db))))).
  { intros Hc. apply ymd_ltb_spec in Hc. congruence. }
  unfold ymd in Hn. lia.
Qed.

(** For a later date that does not precede the earlier one, the delta holds
    a month count [n] that is not negative, moving the earlier date by [n]
    months does not pass the later date, and moving it by one month more
    does. *)
Lemma relativedelta_ordered (l e : date) :
  date_ltb l e = false ->
  exists n,
    0 <= n
    /\ relativedelta_of l e = set_months n
    /\ ymd_ltb (ymd l) (radd (set_months n) e) = false
    /\ ymd_ltb (ymd l) (radd (set_months (n + 1)) e) = true.
Proof.
  intros Hle. pose proof (date_ltb_false l e Hle) as Hord.
  pose proof (relativedelta_fuel_enough l e 1 (le_n 1)) as H.
  unfold relativedelta_fuel in H. rewrite Hle in H.
  set (m := (year l - year e) * 12 + (month l - month e)) in *.
  pose proof (date_bounds l) as [Hm1 Hd1]. pose proof (date_bounds e) as [Hm2 Hd2].
  cbn [adjust] in H.
  destruct (radd_spec m e) as [Y [M [E [HY HM]]]]. rewrite E in H.
  assert (Y = year l /\ M = month l) as [-> ->] by (unfold m in HY; lia).
  assert (Hc : ymd_ltb (ymd l)
                 (year l, month l, Z.min (monthrange (year l) (month l)) (day e))
               = (day l <? Z.min (monthrange (year l) (month l)) (day e))).
  { unfold ymd, ymd_ltb. rewrite !Z.ltb_irrefl, !Z.eqb_refl. reflexivity. }
  rewrite Hc in H.
  destruct (Z.ltb_spec (day l) (Z.min (monthrange (year l) (month l)) (day e)))
    as [Hlt | Hge].
  - destruct (radd_spec (m + -1) e) as [Y' [M' [E' [HY' HM']]]].
    rewrite E' in H.
    destruct (ymd_ltb (ymd l) (Y', M', _)) eqn:C'.
    + exfalso. apply ymd_ltb_spec in C'. unfold ymd in C'. unfold m in HY'. lia.
    + simpl in H. injection H as H. exists (m + -1).
      split; [ unfold m; lia | ]. split; [ symmetry; exact H | ].
      split; [ rewrite E'; exact C' | ].
      replace (m + -1 + 1) with m by lia. rewrite E, Hc. reflexivity.
  - simpl in H. injection H as H. exists m.
    split; [ unfold m; lia | ]. split; [ symmetry; exact H | ].
    split; [ rewrite E, Hc; reflexivity | ].
    destruct (radd_spec (m + 1) e) as [Y' [M' [E' [HY' HM']]]]. rewrite E'.
    apply ymd_ltb_spec. unfold ymd. unfold m in HY'. lia.
Qed.

(** X5. The month count a [relativedelta] of two ordered dates holds, years
    and months together, is the largest number of months by which the
    earlier date can be moved without passing the later one; it is never
    negative, and its months component lies between 0 and 11. *)
Theorem whole_months_is_the_largest_fit (l e : date) :
  date_ltb l e = false ->
  0 <= whole_months l e
  /\ 0 <= months (relativedelta_of l e) <= 11
  /\ ymd_ltb (ymd l) (radd (set_months (whole_months l e)) e) = false
  /\ ymd_ltb (ymd l) (radd (set_months (whole_months l e + 1)) e) = true.
Proof.
  intros H. destruct (relativedelta_ordered l e H) as [n [Hn [E [H1 H2]]]].
  unfold whole_months. cbv zeta. rewrite E, set_months_total.
  split; [ exact Hn | ]. split; [ | split; assumption ].
  pose proof (set_months_sign n) as [Hs _]. pose proof (set_months_bound n).
  specialize (Hs Hn). lia.
Qed.

Lemma whole_months_is_the_largest_fit_witness :
  date_ltb d_2021_04_10 d_2020_01_10 = false
  /\ 0 <= whole_months d_2021_04_10 d_2020_01_10.
Proof.
  split; [ reflexivity | ].
  apply (whole_months_is_the_largest_fit d_2021_04_10 d_2020_01_10).
  reflexivity.
Defined.

(** Two dates with the same month and day are a whole number of years
    apart: the months component of their delta is 0, in either order. *)
Lemma relativedelta_whole_years (l e : date) :
  month l = month e -> day l = day e ->
  months (relativedelta_of l e) = 0.
Proof.
  intros Hm Hd. pose proof (date_bounds l) as [Hm1 Hd1].
  pose proof (relativedelta_fuel_enough l e 1 (le_n 1)) as H.
  unfold relativedelta_fuel in H.
  set (m := (year l - year e) * 12 + (month l - month e)) in *.
  assert (Hdtm : radd (set_months m) e = ymd l).
  { destruct (radd_spec m e) as [Y [M [E [HY HM]]]]. rewrite E.
    assert (Y = year l /\ M = month l) as [-> ->] by (unfold m in HY; lia).
    rewrite Z.min_r by lia. rewrite <- Hd. reflexivity. }
  assert (Hres : relativedelta_of l e = set_months m).
  { destruct (date_ltb l e); cbn [adjust] in H; rewrite Hdtm in H;
      rewrite ymd_ltb_irrefl in H; simpl in H; injection H as H;
      symmetry; exact H. }
  rewrite Hres. pose proof (set_months_total m). pose proof (set_months_bound m).
  unfold m in *. lia.
Qed.

Section Ordered.

Variable infer : list cell -> string -> option date.

(** X6. A row whose later milestone is on or after the earlier one is never
    dropped by the filter: [transform_data] returns its observation for that
    KPI, with a value between 0 and 11. *)
Theorem ordered_milestones_are_emitted (data : DataFrame)
  (out : list (nat * Observation)) (r0 : Row) (c : kpi_column) (l e : date) :
  transform_data infer data = Ok out ->
  In r0 (rows data) ->
  get_fecha (later c) (widen infer data r0) = Timestamp l ->
  get_fecha (earlier c) (widen infer data r0) = Timestamp e ->
  date_ltb l e = false ->
  exists i v,
    0 <= v <= 11
    /\ In (i, mkObservation (meta r0) (kpi_name c) (Some v)
                            (first_year (wide infer data) c)) out.
Proof.
  intros H Hin Hl He Hord. apply transform_data_returns in H.
  destruct H as [_ ->].
  destruct (input_row_position infer data r0 Hin) as [j Hj].
  destruct (relativedelta_ordered l e Hord) as [n [Hn [E _]]].
  pose proof (set_months_sign n) as [Hs _]. specialize (Hs Hn).
  pose proof (set_months_bound n) as Hb.
  exists (label (wide infer data) c j), (months (set_months n)).
  split; [ lia | ]. apply in_output.
  exists c, j, (widen infer data r0), (months (set_months n)).
  repeat split; try assumption.
  rewrite (wide_kpi infer data _ c (nth_error_In _ _ Hj)).
  rewrite Hl, He. simpl. rewrite E. reflexivity.
Qed.

(** X7. A row whose two milestones of a KPI fall on the same month and day
    gets the value 0 and is returned, however many years lie between the two
    dates and whichever of them comes first. *)
Theorem whole_years_apart_give_zero (data : DataFrame)
  (out : list (nat * Observation)) (r0 : Row) (c : kpi_column) (l e : date) :
  transform_data infer data = Ok out ->
  In r0 (rows data) ->
  get_fecha (later c) (widen infer data r0) = Timestamp l ->
  get_fecha (earlier c) (widen infer data r0) = Timestamp e ->
  month l = month e -> day l = day e ->
  exists i,
    In (i, mkObservation (meta r0) (kpi_name c) (Some 0)
                         (first_year (wide infer data) c)) out.
Proof.
  intros H Hin Hl He Hm Hd. apply transform_data_returns in H.
  destruct H as [_ ->].
  destruct (input_row_position infer data r0 Hin) as [j Hj].
  exists (label (wide infer data) c j). apply in_output.
  exists c, j, (widen infer data r0), 0. repeat split; try assumption.
  - rewrite (wide_kpi infer data _ c (nth_error_In _ _ Hj)).
    rewrite Hl, He. simpl. rewrite (relativedelta_whole_years l e Hm Hd).
    reflexivity.
  - lia.
Qed.

End Ordered.

(** The approval two years before the consultation letter, on the same
    month and day. *)
Definition two_years_back : Row :=
  mkRow (stage_meta "R" 1)
        (mkFechas (Timestamp (mkdate 2022 4 10 eq_refl))
                  (Timestamp d_2020_04_10) NaT NaT NaT)
        no_kpis.

Lemma ordered_milestones_are_emitted_witness :
  transform_data infer_iso (mkFrame header [stage_a])
  = Ok [(0%nat, mkObservation (stage_meta "A" 1) "KPI Aprobacion" (Some 3)
                              (Some 2020))]
  /\ exists i v,
       0 <= v <= 11
       /\ In (i, mkObservation (stage_meta "A" 1) "KPI Aprobacion" (Some v)
                               (Some 2020))
             [(0%nat, mkObservation (stage_meta "A" 1) "KPI Aprobacion" (Some 3)
                                    (Some 2020))].
Proof.
  split; [ vm_compute; reflexivity | ].
  apply (ordered_milestones_are_emitted infer_iso (mkFrame header [stage_a]) _
           stage_a cKPI_Aprobacion d_2020_04_10 d_2020_01_10).
  - vm_compute. reflexivity.
  - left. reflexivity.
  - reflexivity.
  - reflexivity.
  - reflexivity.
Defined.

Lemma whole_years_apart_give_zero_witness :
  transform_data infer_iso (mkFrame header [two_years_back])
  = Ok [(0%nat, mkObservation (stage_meta "R" 1) "KPI Aprobacion" (Some 0)
                              (Some 2020))]
  /\ exists i,
       In (i, mkObservation (stage_meta "R" 1) "KPI Aprobacion" (Some 0)
                            (Some 2020))
          [(0%nat, mkObservation (stage_meta "R" 1) "KPI Aprobacion" (Some 0)
                                 (Some 2020))].
Proof.
  split; [ vm_compute; reflexivity | ].
  apply (whole_years_apart_give_zero infer_iso (mkFrame header [two_years_back])
           _ two_years_back cKPI_Aprobacion d_2020_04_10
           (mkdate 2022 4 10 eq_refl)).
  - vm_compute. reflexivity.
  - left. reflexivity.
  - reflexivity.
  - reflexivity.
  - reflexivity.
  - reflexivity.
Defined.

(** ** Where an observation comes from *)

Lemma kpi_name_inj (c c' : kpi_column) : kpi_name c = kpi_name c' -> c = c'.
Proof. destruct c, c'; intros H; try reflexivity; discriminate H. Qed.

Lemma map_fst_to_observation (l : list (nat * (Melted * option Z))) :
  map fst (map to_observation l) = map fst l.
Proof.
  rewrite map_map. apply map_ext. intros [i [x y]]. reflexivity.
Qed.

Lemma with_index_filter_sorted {A : Type} (f : nat * A -> bool) (l : list A)
  (start : nat) :
  StronglySorted lt (map fst (filter f (with_index start l)))
  /\ Forall (fun i => (start <= i < start + List.length l)%nat)
            (map fst (filter f (with_index start l))).
Proof.
  revert start. induction l as [ | x l IH]; intros start; simpl.
  - split; constructor.
  - destruct (IH (S start)) as [Hs Hf].
    assert (Hf' : Forall (fun i => (start <= i < start + S (List.length l))%nat)
                    (map fst (filter f (with_index (S start) l)))).
    { eapply Forall_impl; [ | exact Hf ]. simpl. intros i Hi. lia. }
    destruct (f (start, x)); simpl.
    + split.
      * constructor; [ exact Hs | ].
        eapply Forall_impl; [ | exact Hf ]. simpl. intros i Hi. lia.
      * constructor; [ simpl; lia | exact Hf' ].
    + split; [ exact Hs | exact Hf' ].
Qed.

Lemma length_long_rows (w : list Row) :
  List.length
    (flat_map
       (fun c => map (fun r => (mkMelted (meta r) (fechas r) (kpi_name c)
                                         (get_kpi c r), first_year w c)) w)
       value_vars)
  = (4 * List.length w)%nat.
Proof.
  unfold value_vars. cbn [flat_map]. rewrite !length_app, !length_map.
  simpl. lia.
Qed.

Section Provenance.

Variable infer : list cell -> string -> option date.

(** X8. Every observation of a KPI carries the year of the later milestone
    of the first row of the input table: when that cell is a date, its year,
    for every row; when it is missing or unreadable, no year at all. *)
Theorem year_comes_from_first_input_row (cols : list string) (r1 : Row)
  (rs : list Row) (out : list (nat * Observation)) (i : nat) (o : Observation)
  (c : kpi_column) :
  transform_data infer (mkFrame cols (r1 :: rs)) = Ok out ->
  In (i, o) out ->
  obs_Estaciones o = kpi_name c ->
  obs_Año o
  = dt_year (get_fecha (later c) (widen infer (mkFrame cols (r1 :: rs)) r1)).
Proof.
  intros H Hin Hc. apply transform_data_returns in H. destruct H as [_ ->].
  apply in_output in Hin. destruct Hin as [c' [j [r [v [_ [_ [_ [_ ->]]]]]]]].
  cbn [obs_Estaciones] in Hc. apply kpi_name_inj in Hc. subst c'.
  cbn [obs_Año]. unfold wide, widen. cbv zeta.
  change (rows (drop_duplicates (mkFrame cols (r1 :: rs))))
    with (dedup_from [] (r1 :: rs)).
  destruct (dedup_head r1 rs) as [rest E]. rewrite E. reflexivity.
Qed.

(** X9. The labels of the table [transform_data] returns go strictly up, so
    no label occurs twice, and stay below four times the number of distinct
    rows; the table has at most four observations per distinct row. *)
Theorem output_labels_ascending (data : DataFrame)
  (out : list (nat * Observation)) :
  transform_data infer data = Ok out ->
  StronglySorted lt (map fst out)
  /\ Forall (fun i => (i < 4 * List.length (rows (drop_duplicates data)))%nat)
            (map fst out)
  /\ (List.length out <= 4 * List.length (rows (drop_duplicates data)))%nat.
Proof.
  intros H. apply transform_data_returns in H. destruct H as [_ ->].
  rewrite map_fst_to_observation. unfold long.
  set (L := flat_map _ value_vars).
  assert (HL : List.length L
               = (4 * List.length (rows (drop_duplicates data)))%nat).
  { unfold L. rewrite length_long_rows. unfold wide. rewrite length_map.
    reflexivity. }
  destruct (with_index_filter_sorted keep L 0) as [Hs Hf].
  split; [ exact Hs | ]. split.
  - eapply Forall_impl; [ | exact Hf ]. cbv beta. intros i Hi. lia.
  - rewrite length_map.
    assert (Hw : forall (l : list (Melted * option Z)) s,
              List.length (with_index s l) = List.length l).
    { induction l as [ | x l IH]; intros s; simpl; [ | rewrite IH ];
        reflexivity. }
    pose proof (filter_length_le keep (with_index 0 L)) as Hle.
    rewrite Hw in Hle. lia.
Qed.

(** X10. Nothing in the table returned is made up: every observation has the
    seven identifier cells of a row of the input, unchanged, the name of one
    of the four KPI columns, and the value that KPI has on that row,
    which is zero or more. *)
Theorem observations_come_from_input_rows (data : DataFrame)
  (out : list (nat * Observation)) (i : nat) (o : Observation) :
  transform_data infer data = Ok out ->
  In (i, o) out ->
  exists r0 c v,
    In r0 (rows data)
    /\ obs_meta o = meta r0
    /\ obs_Estaciones o = kpi_name c
    /\ obs_KPI o = Some v
    /\ get_kpi c (widen infer data r0) = Some v
    /\ 0 <= v.
Proof.
  intros H Hin. apply transform_data_returns in H. destruct H as [_ ->].
  apply in_output in Hin. destruct Hin as [c [j [r [v [Hr [_ [Hk [Hv ->]]]]]]]].
  apply nth_error_In in Hr. apply in_wide in Hr. destruct Hr as [r0 [Hr0 ->]].
  exists r0, c, v. repeat split; assumption.
Qed.

(** X11. [transform_data] never raises an [IndexError]: the [iloc[0]] of line
    72 runs once per row of the melted table, so never on a table without
    rows; such a table, when it has the twelve columns, gives the empty
    table. *)
Theorem iloc_never_fails (data : DataFrame) :
  transform_data infer data <> Raise IndexError
  /\ (schema_ok data = true -> rows data = [] ->
      transform_data infer data = Ok []).
Proof.
  split.
  - destruct (schema_ok data) eqn:E.
    + rewrite (transform_data_ok infer data E). discriminate.
    + destruct (transform_data_raises infer data E) as [name [missing [Hr _]]].
      rewrite Hr. discriminate.
  - intros E Hrows. rewrite (transform_data_ok infer data E).
    unfold wide. rewrite rows_drop_duplicates, Hrows. reflexivity.
Qed.

(** X12. Dropping the duplicates of a table before handing it to
    [transform_data] changes nothing: the function drops them itself, and a
    table without duplicates is left as it is. *)
Theorem transform_data_drops_duplicates_itself (data : DataFrame) :
  transform_data infer (drop_duplicates data) = transform_data infer data.
Proof.
  unfold transform_data. cbv zeta.
  assert (E : drop_duplicates (drop_duplicates data) = drop_duplicates data).
  { unfold drop_duplicates at 1. cbn [columns].
    change (select_mask (map negb (duplicated (rows (drop_duplicates data))))
                        (rows (drop_duplicates data)))
      with (dedup_from [] (rows (drop_duplicates data))).
    rewrite dedup_from_NoDup.
    - destruct data as [cols rs]. reflexivity.
    - rewrite rows_drop_duplicates. apply NoDup_dedup_from.
    - intros x _ []. }
  rewrite E. reflexivity.
Qed.

End Provenance.

Lemma year_comes_from_first_input_row_witness :
  transform_data infer_iso (mkFrame header [stage_a; stage_b])
  = Ok two_stages_out
  /\ Some 2020
     = dt_year (get_fecha (later cKPI_Aprobacion)
                  (widen infer_iso (mkFrame header [stage_a; stage_b]) stage_a)).
Proof.
  split; [ vm_compute; reflexivity | ].
  apply (year_comes_from_first_input_row infer_iso header stage_a [stage_b]
           two_stages_out 1
           (mkObservation (stage_meta "B" 2) "KPI Aprobacion" (Some 2)
                          (Some 2020))
           cKPI_Aprobacion).
  - vm_compute. reflexivity.
  - right. left. reflexivity.
  - reflexivity.
Defined.

Lemma output_labels_ascending_witness :
  transform_data infer_iso (mkFrame header [stage_a; stage_b])
  = Ok two_stages_out
  /\ StronglySorted lt (map fst two_stages_out).
Proof.
  split; [ vm_compute; reflexivity | ].
  apply (output_labels_ascending infer_iso (mkFrame header [stage_a; stage_b])).
  vm_compute. reflexivity.
Defined.

Lemma observations_come_from_input_rows_witness :
  transform_data infer_iso (mkFrame header [stage_a; stage_b])
  = Ok two_stages_out
  /\ exists r0 c v,
       In r0 [stage_a; stage_b]
       /\ stage_meta "B" 2 = meta r0
       /\ "KPI Aprobacion"%string = kpi_name c
       /\ Some 2 = Some v
       /\ get_kpi c (widen infer_iso (mkFrame header [stage_a; stage_b]) r0)
          = Some v
       /\ 0 <= v.
Proof.
  split; [ vm_compute; reflexivity | ].
  apply (observations_come_from_input_rows infer_iso
           (mkFrame header [stage_a; stage_b]) two_stages_out 1
           (mkObservation (stage_meta "B" 2) "KPI Aprobacion" (Some 2)
                          (Some 2020))).
  - vm_compute. reflexivity.
  - right. left. reflexivity.
Defined.

Lemma iloc_never_fails_witness :
  schema_ok (mkFrame header []) = true
  /\ transform_data infer_iso (mkFrame header []) = Ok [].
Proof.
  split; [ reflexivity | ].
  apply (proj2 (iloc_never_fails infer_iso (mkFrame header [])));
    reflexivity.
Defined.

(** ** The approximate columns never reach the result *)

Lemma assign_kpis_same_kpis (g : cell -> cell -> option Z) (x y : Row) :
  kpis x = kpis y -> assign_kpis g x = assign_kpis g y -> x = y.
Proof.
  destruct x as [mx fx kx], y as [my fy ky]. unfold assign_kpis. simpl.
  intros -> H. injection H as -> ->. reflexivity.
Qed.

Lemma assign_kpis_over (f g : cell -> cell -> option Z)
  (conv : date_column -> cell -> cell) (x : Row) :
  assign_kpis f (convert_row conv (assign_kpis g x))
  = assign_kpis f (convert_row conv x).
Proof. destruct x as [m [a b c d e] k]. reflexivity. Qed.

Lemma dedup_from_map_inj (B : Row -> Row) (seen xs : list Row) :
  (forall a b, In a (seen ++ xs) -> In b (seen ++ xs) -> B a = B b -> a = b) ->
  dedup_from (map B seen) (map B xs) = map B (dedup_from seen xs).
Proof.
  revert seen. induction xs as [ | x xs IH]; intros seen Hinj;
    [ reflexivity | ].
  cbn [map]. rewrite !dedup_from_cons.
  assert (Hs : seen_before (B x) (map B seen) = seen_before x seen).
  { destruct (seen_before x seen) eqn:E.
    - apply seen_before_true. apply in_map. apply seen_before_true. exact E.
    - destruct (seen_before (B x) (map B seen)) eqn:E'; [ | reflexivity ].
      apply seen_before_true in E'. apply in_map_iff in E'.
      destruct E' as [y [Hy Hin]].
      assert (y = x).
      { apply Hinj; [ apply in_or_app; left; exact Hin
                    | apply in_or_app; right; left; reflexivity | exact Hy ]. }
      subst y. apply seen_before_true in Hin. congruence. }
  rewrite Hs.
  assert (IH' : dedup_from (map B (x :: seen)) (map B xs)
                = map B (dedup_from (x :: seen) xs)).
  { apply IH. intros a b Ha Hb. apply Hinj.
    - apply in_app_or in Ha. apply in_or_app. simpl in *. tauto.
    - apply in_app_or in Hb. apply in_or_app. simpl in *. tauto. }
  cbn [map] in IH'. rewrite IH'.
  destruct (seen_before x seen); reflexivity.
Qed.

Section DeadColumns.

Variable strptime : string -> option date.
Variable infer : list cell -> string -> option date.

(** The table with its dates read under the fixed layout and nothing else
    done to it. *)
Definition dates_only (data : DataFrame) : DataFrame :=
  mkFrame (columns data)
          (map (convert_row (fun _ => to_datetime strptime)) (rows data)).

Lemma wide_after_calculate (data : DataFrame) :
  (forall r, In r (rows data) -> kpis r = no_kpis) ->
  wide infer (after_calculate strptime data) = wide infer (dates_only data).
Proof.
  intros Hk. unfold wide. cbv zeta. rewrite !rows_drop_duplicates.
  unfold after_calculate, dates_only. cbn [rows].
  set (C := convert_row (fun _ => to_datetime strptime)).
  set (B := assign_kpis get_approx_months_diff).
  assert (EA : map (approx_row strptime) (rows data) = map B (map C (rows data)))
    by (rewrite map_map; reflexivity).
  rewrite EA.
  assert (ED : dedup_from [] (map B (map C (rows data)))
               = map B (dedup_from [] (map C (rows data)))).
  { apply (dedup_from_map_inj B [] (map C (rows data))).
    intros a b Ha Hb Hab. simpl in Ha, Hb.
    apply in_map_iff in Ha. destruct Ha as [a0 [<- Ha0]].
    apply in_map_iff in Hb. destruct Hb as [b0 [<- Hb0]].
    apply (assign_kpis_same_kpis get_approx_months_diff); [ | exact Hab ].
    unfold C, convert_row. cbn [kpis]. rewrite (Hk a0 Ha0), (Hk b0 Hb0).
    reflexivity. }
  rewrite ED. set (K := dedup_from [] (map C (rows data))).
  rewrite map_map. apply map_ext. intros x. unfold normalise.
  assert (Es : forall c, map (get_fecha c) (map B K) = map (get_fecha c) K).
  { intros c. rewrite map_map. apply map_ext. intros r.
    apply get_fecha_assign_kpis. }
  unfold B at 2. rewrite assign_kpis_over. f_equal. unfold convert_row.
  rewrite !Es. reflexivity.
Qed.

(** X13. On a table that has no KPI columns yet, the observations the
    pipeline of [main] returns are the ones [transform_data] computes from
    the table with its dates read under the fixed layout: the four columns
    of rounded day counts that [calculate_kpis] assigns are overwritten
    before anything reads them. *)
Theorem approximate_columns_are_overwritten (data data' : DataFrame)
  (out : list (nat * Observation)) :
  (forall r, In r (rows data) -> kpis r = no_kpis) ->
  pipeline strptime infer data = Ok (data', out) ->
  transform_data infer (dates_only data) = Ok out.
Proof.
  intros Hk H. apply pipeline_returns in H. destruct H as [Hs [-> Ht]].
  rewrite (transform_data_ok infer) in Ht
    by (rewrite schema_ok_after_calculate; exact Hs).
  injection Ht as <-.
  rewrite (transform_data_ok infer (dates_only data)) by exact Hs.
  rewrite (wide_after_calculate data Hk). reflexivity.
Qed.

End DeadColumns.

Lemma approximate_columns_are_overwritten_witness :
  pipeline strptime_dmY infer_iso two_stages_text
  = Ok (after_calculate strptime_dmY two_stages_text, two_stages_out)
  /\ transform_data infer_iso (dates_only strptime_dmY two_stages_text)
     = Ok two_stages_out.
Proof.
  split; [ vm_compute; reflexivity | ].
  apply (approximate_columns_are_overwritten strptime_dmY infer_iso
           two_stages_text (after_calculate strptime_dmY two_stages_text)).
  - intros r [<- | [<- | []]]; reflexivity.
  - vm_compute. reflexivity.
Defined.

(** ** One missing date, two KPIs *)

Section Neighbours.

Variable infer : list cell -> string -> option date.

(** X16. Every milestone date but the first and the last feeds two KPIs, as
    the later date of one and the earlier date of the next: a row on which a
    date is missing gives no observation for any KPI that date is an end
    of. A row without an approval date has neither an Approval nor a
    Vigencia observation. *)
Theorem missing_date_suppresses_its_kpis (data : DataFrame)
  (out : list (nat * Observation)) (j : nat) (r : Row) (d : date_column)
  (c : kpi_column) :
  transform_data infer data = Ok out ->
  nth_error (wide infer data) j = Some r ->
  get_fecha d r = NaT ->
  later c = d \/ earlier c = d ->
  forall o, ~ In (label (wide infer data) c j, o) out.
Proof.
  intros H Hr Hd Hc o Ho. apply transform_data_returns in H.
  destruct H as [_ ->]. apply in_output in Ho.
  destruct Ho as [c' [j' [r' [v [Hr' [Hi [Hk _]]]]]]].
  assert (Hj : (j < List.length (wide infer data))%nat)
    by (apply nth_error_Some; congruence).
  assert (Hj' : (j' < List.length (wide infer data))%nat)
    by (apply nth_error_Some; congruence).
  apply label_inj in Hi; [ | assumption | assumption ].
  destruct Hi as [<- <-]. rewrite Hr in Hr'. injection Hr' as <-.
  rewrite (wide_kpi infer data r c (nth_error_In _ _ Hr)) in Hk.
  destruct Hc as [Hc | Hc]; subst d; rewrite Hd in Hk.
  - discriminate Hk.
  - destruct (get_fecha (later c) r); discriminate Hk.
Qed.

(** X17. [drop_duplicates] leaves a table in which no row occurs twice, with
    exactly the rows of the input, the first row of the input still first,
    and never more rows than before. *)
Theorem drop_duplicates_keeps_one_of_each (data : DataFrame) :
  NoDup (rows (drop_duplicates data))
  /\ (forall r, In r (rows (drop_duplicates data)) <-> In r (rows data))
  /\ hd_error (rows (drop_duplicates data)) = hd_error (rows data)
  /\ (List.length (rows (drop_duplicates data)) <= List.length (rows data))%nat
  /\ columns (drop_duplicates data) = columns data.
Proof.
  rewrite rows_drop_duplicates.
  split; [ apply NoDup_dedup_from | ].
  split; [ intros r; rewrite in_dedup_from; simpl; tauto | ].
  split; [ | split; [ | reflexivity ] ].
  - destruct (rows data) as [ | r rs]; [ reflexivity | ].
    destruct (dedup_head r rs) as [rest E]. rewrite E. reflexivity.
  - generalize (@nil Row) as seen. induction (rows data) as [ | r rs IH];
      intros seen; [ simpl; lia | ].
    rewrite dedup_from_cons. specialize (IH (r :: seen)).
    destruct (seen_before r seen); simpl; lia.
Qed.

End Neighbours.

Lemma missing_date_suppresses_its_kpis_witness :
  transform_data infer_iso no_approval
  = Ok [(2%nat, mkObservation (stage_meta "E2" 1) "KPI Elegibilidad" (Some 1)
                              (Some 2021));
        (3%nat, mkObservation (stage_meta "E2" 1) "KPI Primer Desembolso"
                              (Some 3) (Some 2021))]
  /\ forall o,
       ~ In (label (wide infer_iso no_approval) cKPI_Vigencia 0, o)
            [(2%nat, mkObservation (stage_meta "E2" 1) "KPI Elegibilidad"
                                   (Some 1) (Some 2021));
             (3%nat, mkObservation (stage_meta "E2" 1) "KPI Primer Desembolso"
                                   (Some 3) (Some 2021))].
Proof.
  split; [ vm_compute; reflexivity | ].
  apply (missing_date_suppresses_its_kpis infer_iso no_approval _ 0
           (widen infer_iso no_approval
              (mkRow (stage_meta "E2" 1)
                 (mkFechas (Timestamp d_2020_01_10) NaT (Timestamp d_2021_05_01)
                    (Timestamp d_2021_06_01) (Timestamp d_2021_09_01))
                 no_kpis))
           cFechaAprobacion cKPI_Vigencia).
  - vm_compute. reflexivity.
  - reflexivity.
  - reflexivity.
  - right. reflexivity.
Defined.

(** ** Which copy of a duplicated row is kept *)

Definition stage_a_text : Row :=
  mkRow (stage_meta "A" 1)
        (mkFechas (Text "10/01/2020") (Text "10/04/2020") NaT NaT NaT)
        no_kpis.

Definition stage_b_text : Row :=
  mkRow (stage_meta "B" 2)
        (mkFechas (Text "15/01/2021") (Text "15/03/2021") NaT NaT NaT)
        no_kpis.

(** Row A twice, with row B in between, and the two tables that hold one
    copy of row A. *)
Definition a_b_a : DataFrame :=
  mkFrame header [stage_a_text; stage_b_text; stage_a_text].

Definition a_b : DataFrame := mkFrame header [stage_a_text; stage_b_text].

Definition b_a : DataFrame := mkFrame header [stage_b_text; stage_a_text].

(** The observations of a run, without their labels. *)
Definition observations (res : result (DataFrame * list (nat * Observation)))
  : list Observation :=
  match res with
  | Ok (_, out) => map snd out
  | Raise _ => []
  end.

(** C5 on [a_b_a]: the table with row A twice returns the observations of
    the one-copy table [a_b], and not those of the one-copy table [b_a]: an
    observation of [a_b_a] carries the year 2020 and no observation of [b_a]
    does, the year being read in the first row of the table (line 72). *)
Theorem kept_copy_decides_the_years :
  observations (pipeline strptime_dmY infer_iso a_b_a)
  = [mkObservation (stage_meta "A" 1) "KPI Aprobacion" (Some 3) (Some 2020);
     mkObservation (stage_meta "B" 2) "KPI Aprobacion" (Some 2) (Some 2020)]
  /\ observations (pipeline strptime_dmY infer_iso a_b)
     = observations (pipeline strptime_dmY infer_iso a_b_a)
  /\ observations (pipeline strptime_dmY infer_iso b_a)
     = [mkObservation (stage_meta "B" 2) "KPI Aprobacion" (Some 2) (Some 2021);
        mkObservation (stage_meta "A" 1) "KPI Aprobacion" (Some 3) (Some 2021)]
  /\ ~ (forall o,
          In o (observations (pipeline strptime_dmY infer_iso a_b_a))
          <-> In o (observations (pipeline strptime_dmY infer_iso b_a))).
Proof.
  assert (E1 : observations (pipeline strptime_dmY infer_iso a_b_a)
               = [mkObservation (stage_meta "A" 1) "KPI Aprobacion" (Some 3)
                                (Some 2020);
                  mkObservation (stage_meta "B" 2) "KPI Aprobacion" (Some 2)
                                (Some 2020)])
    by (vm_compute; reflexivity).
  assert (E2 : observations (pipeline strptime_dmY infer_iso a_b)
               = [mkObservation (stage_meta "A" 1) "KPI Aprobacion" (Some 3)
                                (Some 2020);
                  mkObservation (stage_meta "B" 2) "KPI Aprobacion" (Some 2)
                                (Some 2020)])
    by (vm_compute; reflexivity).
  assert (E3 : observations (pipeline strptime_dmY infer_iso b_a)
               = [mkObservation (stage_meta "B" 2) "KPI Aprobacion" (Some 2)
                                (Some 2021);
                  mkObservation (stage_meta "A" 1) "KPI Aprobacion" (Some 3)
                                (Some 2021)])
    by (vm_compute; reflexivity).
  rewrite E1, E2, E3.
  split; [ reflexivity | ]. split; [ reflexivity | ]. split; [ reflexivity | ].
  intros H.
  destruct (H (mkObservation (stage_meta "A" 1) "KPI Aprobacion" (Some 3)
                             (Some 2020))) as [H1 _].
  destruct (H1 (or_introl eq_refl)) as [H2 | [H2 | []]]; discriminate H2.
Qed.
